(** * NFL Stats Explorer: the aggregation pipeline of [streamlit_app.py]

    A shallow embedding of the data transformations of the dashboard: the
    defensive aggregator ([load_and_aggregate_pbp_data]), the leaderboards
    of the "Top Performers" tab and the player summary of the "Player
    Search" tab, with the properties the specification states about them.

    Tables are pandas data frames: a list of column names and a list of
    rows; a row maps a column name to a cell.  Text cells and numeric cells
    live in two maps; a column that is in neither map of a row is NaN there.
    Floating point numbers are idealised as rationals ([Q]): sums are exact.
    A lookup of a column that the frame does not have raises [KeyError], as
    in pandas. *)

From Stdlib Require Import QArith Qround.
From stdpp Require Import base gmap list strings sorting.

Close Scope Q_scope.
Local Open Scope string_scope.
Local Open Scope list_scope.

(** ** Exceptions *)

Inductive exn : Type :=
  | KeyError (column : string)
  | ValueError.

Inductive result (A : Type) : Type :=
  | Ok (a : A)
  | Raise (e : exn).
Arguments Ok {A} a.
Arguments Raise {A} e.

#[global] Instance result_ret : MRet result := λ A a, Ok a.
#[global] Instance result_bind : MBind result := λ A B f m,
  match m with
  | Ok a => f a
  | Raise e => Raise e
  end.

(** ** Data frames *)

Record Row : Type := mkRow {
  txt : gmap string string;
  num : gmap string Q
}.

Record DataFrame : Type := mkDF {
  columns : list string;
  rows : list Row
}.

(** [pd.DataFrame()] *)
Definition empty_frame : DataFrame := mkDF [] [].

(** [df.empty]: one of the two axes has length 0. *)
Definition df_empty (df : DataFrame) : bool :=
  match columns df, rows df with
  | [], _ => true
  | _, [] => true
  | _, _ => false
  end.

(** [c in df.columns] *)
Definition has_col (df : DataFrame) (c : string) : bool :=
  bool_decide (c ∈ columns df).

(** [df[c]] raises when the column is missing. *)
Definition getcol (df : DataFrame) (c : string) : result unit :=
  if has_col df c then Ok () else Raise (KeyError c).

Fixpoint getcols (df : DataFrame) (cs : list string) : result unit :=
  match cs with
  | [] => Ok ()
  | c :: cs' => _ ← getcol df c; getcols df cs'
  end.

Definition notna (c : string) (r : Row) : bool :=
  match txt r !! c, num r !! c with
  | None, None => false
  | _, _ => true
  end.

(** [df.dropna(subset=[c])] *)
Definition dropna (c : string) (df : DataFrame) : DataFrame :=
  mkDF (columns df) (filter (λ r, notna c r) (rows df)).

(** [df[mask]] for a row-wise mask *)
Definition where_ (mask : Row → bool) (df : DataFrame) : DataFrame :=
  mkDF (columns df) (filter (λ r, mask r) (rows df)).

(** ** Numbers *)

Definition Qsum (l : list Q) : Q := foldr Qplus 0%Q l.

(** [series.sum()]: NaN cells are skipped. *)
Definition col_sum (c : string) (rs : list Row) : Q :=
  Qsum (omap (λ r, num r !! c) rs).

(** [int(x)] and [astype(int)]: truncation towards zero. *)
Definition Qtrunc (q : Q) : Z := Z.quot (Qnum q) (Zpos (Qden q)).

Definition Qlt_bool (x y : Q) : bool := negb (Qle_bool y x).

(** [series == 1], [series > 0], [lo <= series <= hi]; a NaN compares false. *)
Definition num_eqb (c : string) (v : Q) (r : Row) : bool :=
  match num r !! c with
  | Some q => Qeq_bool q v
  | None => false
  end.

Definition num_gtb (c : string) (v : Q) (r : Row) : bool :=
  match num r !! c with
  | Some q => Qlt_bool v q
  | None => false
  end.

Definition num_between (c : string) (lo hi : Z) (r : Row) : bool :=
  match num r !! c with
  | Some q => Qle_bool (inject_Z lo) q && Qle_bool q (inject_Z hi)
  | None => false
  end.

Definition txt_eqb (c : string) (v : string) (r : Row) : bool :=
  bool_decide (txt r !! c = Some v).

(** ** groupby *)

(** Group keys are tuples of text cells, ordered as Python orders tuples of
    strings. *)
Fixpoint key_leb (k1 k2 : list string) : bool :=
  match k1, k2 with
  | [], _ => true
  | _ :: _, [] => false
  | a :: k1', b :: k2' =>
      match String.compare a b with
      | Lt => true
      | Eq => key_leb k1' k2'
      | Gt => false
      end
  end.

Definition key_le (k1 k2 : list string) : Prop := key_leb k1 k2 = true.

#[global] Instance key_le_dec k1 k2 : Decision (key_le k1 k2).
Proof. unfold key_le. apply _. Defined.

(** The key of a row; a row with a NaN in a key column belongs to no group
    ([dropna=True], the default). *)
Definition row_key (by_ : list string) (r : Row) : option (list string) :=
  mapM (λ c, txt r !! c) by_.

(** The distinct keys, sorted ([sort=True], the default). *)
Definition group_keys (by_ : list string) (rs : list Row) : list (list string) :=
  merge_sort key_le (remove_dups (omap (row_key by_) rs)).

Definition key_cells (by_ : list string) (k : list string) : gmap string string :=
  list_to_map (zip by_ k).

(** [df.groupby(by)....reset_index()]: one row per key, the key columns
    followed by the aggregate. *)
Definition groupby_agg (by_ : list string) (out : string)
    (agg : list Row → Q) (df : DataFrame) : DataFrame :=
  mkDF (by_ ++ [out])
       ((λ k, mkRow (key_cells by_ k)
                    {[ out := agg (filter (λ r, row_key by_ r = Some k) (rows df)) ]})
          <$> group_keys by_ (rows df)).

(** [df.groupby(by).size().reset_index(name=name)] *)
Definition groupby_size (by_ : list string) (name : string) (df : DataFrame)
    : result DataFrame :=
  _ ← getcols df by_;
  Ok (groupby_agg by_ name (λ g, inject_Z (Z.of_nat (length g))) df).

(** [df.groupby(by)[c].sum().reset_index()] *)
Definition groupby_sum (by_ : list string) (c : string) (df : DataFrame)
    : result DataFrame :=
  _ ← getcols df by_;
  _ ← getcol df c;
  Ok (groupby_agg by_ c (col_sum c) df).

(** ** rename, fillna, astype *)

Definition rename_col (m : gmap string string) (c : string) : string :=
  default c (m !! c).

Definition rename_keys {V} (m : gmap string string) (cells : gmap string V)
    : gmap string V :=
  list_to_map (prod_map (rename_col m) id <$> map_to_list cells).

(** [df.rename(columns=m)] *)
Definition rename (m : gmap string string) (df : DataFrame) : DataFrame :=
  mkDF (rename_col m <$> columns df)
       ((λ r, mkRow (rename_keys m (txt r)) (rename_keys m (num r))) <$> rows df).

Definition fill_row (cs : list string) (r : Row) : Row :=
  mkRow (txt r)
        (foldr (λ c m, if notna c r then m else <[c := 0%Q]> m) (num r) cs).

(** [df.fillna(0)] *)
Definition fillna0 (df : DataFrame) : DataFrame :=
  mkDF (columns df) (fill_row (columns df) <$> rows df).

Definition cast_row (cs : list string) (r : Row) : Row :=
  mkRow (txt r)
        (map_imap (λ c q, Some (if bool_decide (c ∈ cs)
                                then inject_Z (Qtrunc q) else q)) (num r)).

(** [df[cs] = df[cs].astype(int)] *)
Definition astype_int (cs : list string) (df : DataFrame) : DataFrame :=
  mkDF (columns df) (cast_row cs <$> rows df).

(** ** merge *)

Inductive how : Type := Left | Outer.

Definition join_row (l r : Row) : Row :=
  mkRow (txt l ∪ txt r) (num l ∪ num r).

Definition same_key (on : string) (a b : Row) : Prop :=
  txt a !! on = txt b !! on.

#[global] Instance same_key_dec on a b : Decision (same_key on a b).
Proof. unfold same_key. apply _. Defined.

(** [pd.merge(left, right, on=on, how=h)] for frames whose only shared
    column is [on].  A left row is joined with each right row of its key
    and kept as it is (NaN in the right columns) when there is none; with
    [how='outer'] the right rows whose key the left frame lacks follow.
    (pandas from 2.2 on sorts the rows of an outer join by key instead; the
    program sorts again before it shows anything, and no property below
    depends on the order of these rows.) *)
Definition merge (left right : DataFrame) (on : string) (h : how) : DataFrame :=
  mkDF (columns left ++ filter (λ c, c ≠ on) (columns right))
       (flat_map (λ l, match filter (same_key on l) (rows right) with
                       | [] => [l]
                       | ms => join_row l <$> ms
                       end) (rows left)
        ++ match h with
           | Left => []
           | Outer => filter (λ r, Forall (λ l, ¬ same_key on l r) (rows left))
                             (rows right)
           end).

(** [df.drop_duplicates(subset=[c])]: the first row of each key is kept. *)
Fixpoint drop_duplicates_from (c : string) (seen : list (option string))
    (rs : list Row) : list Row :=
  match rs with
  | [] => []
  | r :: rs' =>
      if bool_decide (txt r !! c ∈ seen) then drop_duplicates_from c seen rs'
      else r :: drop_duplicates_from c (txt r !! c :: seen) rs'
  end.

Definition drop_duplicates (c : string) (df : DataFrame) : DataFrame :=
  mkDF (columns df) (drop_duplicates_from c [] (rows df)).

(** [df[cs]]: the projection on the columns [cs]. *)
Definition select_row (cs : list string) (r : Row) : Row :=
  mkRow (filter (λ kv, kv.1 ∈ cs) (txt r)) (filter (λ kv, kv.1 ∈ cs) (num r)).

Definition select (cs : list string) (df : DataFrame) : result DataFrame :=
  _ ← getcols df cs;
  Ok (mkDF cs (select_row cs <$> rows df)).

(** ** The defensive aggregator *)

Definition pdn : string := "player_display_name".

(** Statistic name, flag column, player column; in the order of the dict. *)
Definition def_stats_dict : list (string * (string * string)) :=
  [ ("sacks", ("sack", "sack_player_name"));
    ("interceptions", ("interception", "interception_player_name"));
    ("fumbles_forced", ("fumble_forced", "forced_fumble_player_1_player_name"));
    ("passes_defended", ("pass_defense_1_player_name", "pass_defense_1_player_name"));
    ("fumbles_recovered", ("fumble", "fumble_recovery_1_player_name")) ].

Definition count_kinds : list string := ["passes_defended"; "fumbles_recovered"].

(** The body of the loop for one kind: the per-kind (player, count) table.
    The dict of [rename] is built flag column first, so the player column
    wins when both are the same column. *)
Definition stat_frame (pbp_df : DataFrame) (stat_name flag_col player_col : string)
    : result DataFrame :=
  let df_filtered := dropna player_col pbp_df in
  stat_df ← (if bool_decide (stat_name ∈ count_kinds)
             then groupby_size [player_col] stat_name df_filtered
             else _ ← getcol df_filtered flag_col;
                  groupby_sum [player_col] flag_col
                    (where_ (num_eqb flag_col 1%Q) df_filtered));
  Ok (rename (<[player_col := pdn]> (<[flag_col := stat_name]> ∅)) stat_df).

Fixpoint aggregated_stats (pbp_df : DataFrame)
    (kinds : list (string * (string * string))) : result (list DataFrame) :=
  match kinds with
  | [] => Ok []
  | (stat_name, (flag_col, player_col)) :: kinds' =>
      if has_col pbp_df player_col then
        stat_df ← stat_frame pbp_df stat_name flag_col player_col;
        rest ← aggregated_stats pbp_df kinds';
        Ok (stat_df :: rest)
      else aggregated_stats pbp_df kinds'
  end.

Definition outer_on_player (left right : DataFrame) : DataFrame :=
  merge left right pdn Outer.

Definition load_and_aggregate_pbp_data (pbp_df rosters_df : DataFrame)
    : result DataFrame :=
  aggregated ← aggregated_stats pbp_df def_stats_dict;
  match aggregated with
  | [] => Ok empty_frame
  | first :: others =>
      let defensive_df := foldl outer_on_player first others in
      let defensive_df := fillna0 defensive_df in
      let stat_cols_to_convert :=
        filter (λ stat, has_col defensive_df stat) (def_stats_dict.*1) in
      let defensive_df := astype_int stat_cols_to_convert defensive_df in
      player_positions ← select ["player_name"; "position"] rosters_df;
      let player_positions := rename {[ "player_name" := pdn ]} player_positions in
      let player_positions := drop_duplicates pdn player_positions in
      Ok (merge defensive_df player_positions pdn Left)
  end.

(** ** Sorting

    [df.sort_values(by=c, ascending=False)] is pandas' default sort
    ([kind='quicksort']).  The program relies on the library for it, so it
    is an interface here: a rearrangement of the rows in which no row is
    followed by one with a larger value, NaN last.  What the library does
    with rows of equal value is not part of the interface. *)

Definition desc_na_last (c : string) (a b : Row) : Prop :=
  match num a !! c, num b !! c with
  | Some x, Some y => (y <= x)%Q
  | Some _, None => True
  | None, Some _ => False
  | None, None => True
  end.

Class SortValues : Type := {
  sort_rows : string → list Row → list Row;
  sort_rows_perm : ∀ c l, sort_rows c l ≡ₚ l;
  sort_rows_sorted : ∀ c l, Sorted (desc_na_last c) (sort_rows c l)
}.

Definition sort_values `{SortValues} (c : string) (df : DataFrame) : DataFrame :=
  mkDF (columns df) (sort_rows c (rows df)).

(** [df.head(n)] *)
Definition head_ (n : nat) (df : DataFrame) : DataFrame :=
  mkDF (columns df) (take n (rows df)).

(** ** Leaderboards *)

(** A leaderboard is a frame with its index: the rank labels. *)
Record Leaderboard : Type := mkLB {
  lb_columns : list string;
  lb_rows : list (Z * Row)
}.

(** [reset_index(drop=True)] numbers the rows from 0; [index + 1]. *)
Definition rank_from_one (df : DataFrame) : Leaderboard :=
  mkLB (columns df) (imap (λ i r, (Z.of_nat i + 1, r)%Z) (rows df)).

(** Python dicts with string keys, in insertion order. *)
Definition dict_get (d : list (string * string)) (k : option string)
    : result string :=
  match k with
  | Some key =>
      match list_find (λ kv, kv.1 = key) d with
      | Some (_, kv) => Ok kv.2
      | None => Raise (KeyError key)
      end
  | None => Raise (KeyError "None")
  end.

Definition OFFENSE_STATS : list (string * string) :=
  [ ("Passing Yards", "passing_yards"); ("Passing TDs", "passing_tds");
    ("Interceptions Thrown", "interceptions"); ("Sacks Taken", "sacks");
    ("Rushing Yards", "rushing_yards"); ("Rushing TDs", "rushing_tds");
    ("Receptions", "receptions"); ("Receiving Yards", "receiving_yards");
    ("Receiving TDs", "receiving_tds") ].

Definition DEFENSE_STATS : list (string * string) :=
  [ ("Sacks", "sacks"); ("Interceptions", "interceptions");
    ("Passes Defended", "passes_defended"); ("Forced Fumbles", "fumbles_forced");
    ("Fumbles Recovered", "fumbles_recovered") ].

Definition NGS_TRANSLATIONS : list (string * string) :=
  [ ("avg_time_to_throw", "Avg Time to Throw (sec)");
    ("avg_completed_air_yards", "Avg Completed Air Yards");
    ("avg_intended_air_yards", "Avg Intended Air Yards");
    ("efficiency", "Rushing Efficiency");
    ("rush_yards_over_expected", "Rush Yards Over Expected") ].

(** The defensive leaderboard (tab 1, "Defense"). *)
Definition defense_leaderboard `{SortValues} (defensive_df : DataFrame)
    (stat_column : string) : result (option Leaderboard) :=
  if has_col defensive_df stat_column then
    let leaderboard := sort_values stat_column defensive_df in
    let leaderboard := head_ 20 (where_ (num_gtb stat_column 0%Q) leaderboard) in
    let display_cols := [pdn; "position"; stat_column] in
    leaderboard ← select display_cols leaderboard;
    Ok (Some (rank_from_one leaderboard))
  else Ok None.

(** ['avg' in stat_column] *)
Definition contains_avg (stat_column : string) : bool :=
  match String.index 0 "avg" stat_column with
  | Some _ => true
  | None => false
  end.

(** The value of the variable [aggregation]: the name of the aggregate
    that the column calls for. *)
Definition aggregation_choice (stat_column : string) : string :=
  if contains_avg stat_column then "mean" else "sum".

(** The leaderboard of the offensive and Next Gen Stats paths: the guarded
    block that ends tab 1.  [aggregation] is computed and not used. *)
Definition stat_leaderboard `{SortValues} (df_for_leaders : DataFrame)
    (groupby_cols display_cols : list string) (stat_column : string)
    : result (option Leaderboard) :=
  if has_col df_for_leaders stat_column && negb (df_empty df_for_leaders) then
    let aggregation := aggregation_choice stat_column in
    leaderboard ← groupby_sum groupby_cols stat_column df_for_leaders;
    let leaderboard := head_ 20 (sort_values stat_column leaderboard) in
    _ ← select display_cols leaderboard;
    Ok (Some (rank_from_one leaderboard))
  else Ok None.

(** ** The page *)

Inductive SeasonType : Type := All | RegularSeason | Postseason.
Inductive Category : Type := Offense | Defense | NextGenStats.
Inductive NgsType : Type := Passing | Rushing | Receiving.

(** What the user has set in the widgets.  A select box returns the option
    chosen, the first one by default, and [None] when it has no options; a
    slider returns the chosen pair when it lies within its bounds and the
    full range by default. *)
Record Widgets : Type := mkWidgets {
  selected_year : Z;
  season_type_toggle : SeasonType;
  main_category : Category;
  stat_choice : nat;
  ngs_type : NgsType;
  week_choice : option (Z * Z)
}.

Definition selectbox (options : list string) (choice : nat) : option string :=
  match options !! choice with
  | Some o => Some o
  | None => head options
  end.

Definition slider (min_value max_value : Z) (choice : option (Z * Z)) : Z * Z :=
  match choice with
  | Some (lo, hi) =>
      if bool_decide (min_value ≤ lo ∧ lo ≤ hi ∧ hi ≤ max_value)%Z
      then (lo, hi) else (min_value, max_value)
  | None => (min_value, max_value)
  end.

Definition Qmin_list (l : list Q) : option Q :=
  foldr (λ q acc, Some (match acc with
                        | Some m => if Qle_bool q m then q else m
                        | None => q
                        end)) None l.

Definition Qmax_list (l : list Q) : option Q :=
  foldr (λ q acc, Some (match acc with
                        | Some m => if Qle_bool m q then q else m
                        | None => q
                        end)) None l.

(** [int(df['week'].min()), int(df['week'].max())]: the minimum of a
    column without a number is NaN, which [int] refuses. *)
Definition week_bounds (df : DataFrame) : result (Z * Z) :=
  _ ← getcol df "week";
  let weeks := omap (λ r, num r !! "week") (rows df) in
  match Qmin_list weeks, Qmax_list weeks with
  | Some lo, Some hi => Ok (Qtrunc lo, Qtrunc hi)
  | _, _ => Raise ValueError
  end.

(** The chart title: the statistic and, outside the defensive path, the
    week range printed after it. *)
Record Chart : Type := mkChart {
  chart_df : Leaderboard;
  chart_stat_col : string;
  chart_title : option string * option (Z * Z)
}.

Inductive Page : Type :=
  | Stopped
  | TopPerformers (chart : option Chart).

Definition season_filter (season_type_toggle : SeasonType)
    (weekly_df_raw : DataFrame) : result DataFrame :=
  match season_type_toggle with
  | RegularSeason =>
      _ ← getcol weekly_df_raw "season_type";
      Ok (where_ (txt_eqb "season_type" "REG") weekly_df_raw)
  | Postseason =>
      _ ← getcol weekly_df_raw "season_type";
      Ok (where_ (txt_eqb "season_type" "POST") weekly_df_raw)
  | All => Ok weekly_df_raw
  end.

Definition ngs_key (t : NgsType) : string :=
  match t with
  | Passing => "passing"
  | Rushing => "rushing"
  | Receiving => "receiving"
  end.

(** [{NGS_TRANSLATIONS.get(col, col): col for col in df.columns
      if col in NGS_TRANSLATIONS}] *)
Definition ngs_stat_cols (df : DataFrame) : list (string * string) :=
  omap (λ col, (λ label, (label, col)) <$> (list_to_map NGS_TRANSLATIONS : gmap string string) !! col)
       (columns df).

Definition to_chart (key : option string) (stat_column : string)
    (weeks : option (Z * Z)) (lb : option Leaderboard) : option Chart :=
  (λ l, mkChart l stat_column (key, weeks)) <$> lb.

(** The script from the data of the season to the end of tab 1. *)
Definition top_performers `{SortValues}
    (weekly_df_raw : DataFrame) (ngs_data_raw : NgsType → DataFrame)
    (pbp_df rosters_df : DataFrame) (w : Widgets) : result Page :=
  defensive_df_raw ← load_and_aggregate_pbp_data pbp_df rosters_df;
  weekly_df ← season_filter (season_type_toggle w) weekly_df_raw;
  let defensive_df := defensive_df_raw in
  if df_empty weekly_df then Ok Stopped else
  _ ← getcol weekly_df pdn;
  match main_category w with
  | Defense =>
      let sub_category_key := selectbox (DEFENSE_STATS.*1) (stat_choice w) in
      stat_column ← dict_get DEFENSE_STATS sub_category_key;
      leaderboard ← defense_leaderboard defensive_df stat_column;
      Ok (TopPerformers (to_chart sub_category_key stat_column None leaderboard))
  | Offense =>
      '(min_week, max_week) ← week_bounds weekly_df;
      let week_range := slider min_week max_week (week_choice w) in
      let df_for_leaders :=
        where_ (num_between "week" week_range.1 week_range.2) weekly_df in
      let sub_category_key := selectbox (OFFENSE_STATS.*1) (stat_choice w) in
      stat_column ← dict_get OFFENSE_STATS sub_category_key;
      let display_cols := [pdn; "position"; stat_column] in
      let groupby_cols := [pdn; "position"] in
      leaderboard ← stat_leaderboard df_for_leaders groupby_cols display_cols stat_column;
      Ok (TopPerformers (to_chart sub_category_key stat_column (Some week_range) leaderboard))
  | NextGenStats =>
      '(min_week, max_week) ← week_bounds weekly_df;
      let week_range := slider min_week max_week (week_choice w) in
      let df_for_leaders :=
        where_ (num_between "week" week_range.1 week_range.2) weekly_df in
      let df_for_leaders := ngs_data_raw (ngs_type w) in
      _ ← getcol df_for_leaders "season";
      let df_for_leaders :=
        where_ (num_eqb "season" (inject_Z (selected_year w))) df_for_leaders in
      let stat_cols := ngs_stat_cols df_for_leaders in
      let sub_category_key := selectbox (remove_dups (stat_cols.*1)) (stat_choice w) in
      stat_column ← dict_get stat_cols sub_category_key;
      let display_cols := [pdn; stat_column] in
      let groupby_cols := [pdn] in
      leaderboard ← stat_leaderboard df_for_leaders groupby_cols display_cols stat_column;
      Ok (TopPerformers (to_chart sub_category_key stat_column (Some week_range) leaderboard))
  end.

(** ** The player summary (tab 2) *)

Record PlayerSummary : Type := mkSummary {
  cols_with_data : list string;
  agg_stats : list (string * Z);
  range_agg_stats : list (string * Z);
  per_game : DataFrame
}.

(** [None]: the player has no recorded statistic, and no table is built. *)
Definition player_search (weekly_df : DataFrame) (player_name : string)
    (choice : option (Z * Z)) : result (option PlayerSummary) :=
  _ ← getcol weekly_df pdn;
  let player_weekly_stats := where_ (txt_eqb pdn player_name) weekly_df in
  let cols_with_data :=
    filter (λ col, has_col player_weekly_stats col
                   ∧ Qlt_bool 0%Q (col_sum col (rows player_weekly_stats)))
           (OFFENSE_STATS.*2) in
  match cols_with_data with
  | [] => Ok None
  | _ =>
      let agg_stats :=
        (λ col, (col, Qtrunc (col_sum col (rows player_weekly_stats))))
          <$> cols_with_data in
      '(player_min_week, player_max_week) ← week_bounds player_weekly_stats;
      let player_week_range := slider player_min_week player_max_week choice in
      let player_filtered_df :=
        where_ (num_between "week" player_week_range.1 player_week_range.2)
               player_weekly_stats in
      let range_agg_stats :=
        (λ col, (col, col_sum col (rows player_filtered_df))) <$> cols_with_data in
      let range_agg_stats :=
        (λ cv, (cv.1, Qtrunc cv.2))
          <$> filter (λ cv, Qlt_bool 0%Q cv.2) range_agg_stats in
      per_game ← select ("week" :: cols_with_data) player_weekly_stats;
      Ok (Some (mkSummary cols_with_data agg_stats range_agg_stats per_game))
  end.

(** ** Two sorts that meet the interface

    A merge sort and an insertion sort, both by descending value.  The
    insertion sort puts a row in front of the rows of the same value that
    follow it in the input; the merge sort does not always. *)

#[global] Instance Qle_dec (x y : Q) : Decision (x <= y)%Q.
Proof.
  destruct (Qle_bool x y) eqn:E.
  - left. by apply Qle_bool_iff.
  - right. intros Hle. apply Qle_bool_iff in Hle. congruence.
Defined.

#[global] Instance desc_na_last_dec c a b : Decision (desc_na_last c a b).
Proof. unfold desc_na_last. destruct (num a !! c), (num b !! c); apply _. Defined.

#[global] Instance desc_na_last_total c : Total (desc_na_last c).
Proof.
  intros a b. unfold desc_na_last.
  destruct (num a !! c) as [x|], (num b !! c) as [y|]; auto.
  destruct (Qlt_le_dec x y) as [Hlt|Hle]; [right; by apply Qlt_le_weak|by left].
Qed.

#[global] Instance desc_na_last_trans c : Transitive (desc_na_last c).
Proof.
  intros a b d. unfold desc_na_last.
  destruct (num a !! c) as [x|], (num b !! c) as [y|], (num d !! c) as [z|];
    try done.
  intros H1 H2. by eapply Qle_trans.
Qed.

Definition merge_sort_rows (c : string) (l : list Row) : list Row :=
  merge_sort (desc_na_last c) l.

Definition merge_sort_values : SortValues :=
  {| sort_rows := merge_sort_rows;
     sort_rows_perm := λ c l, merge_sort_Permutation (desc_na_last c) l;
     sort_rows_sorted := λ c l, Sorted_merge_sort (desc_na_last c) l |}.

Fixpoint insert_row (c : string) (x : Row) (s : list Row) : list Row :=
  match s with
  | [] => [x]
  | y :: s' =>
      if decide (desc_na_last c x y) then x :: y :: s'
      else y :: insert_row c x s'
  end.

Definition insertion_sort_rows (c : string) (l : list Row) : list Row :=
  foldr (insert_row c) [] l.

Definition insertion_sort_values : SortValues.
Proof.
  refine {| sort_rows := insertion_sort_rows |}.
  - intros c l. induction l as [|x l IH]; [done|]. simpl. rewrite <- IH at 2.
    generalize (insertion_sort_rows c l). intros s.
    induction s as [|y s IHs]; [done|]. simpl. case_decide; [done|].
    by rewrite IHs, Permutation_swap.
  - intros c l. induction l as [|x l IH]; [constructor|]. simpl.
    revert IH. generalize (insertion_sort_rows c l). intros s.
    induction 1 as [|y s Hs IH Hy]; simpl; [by repeat constructor|].
    case_decide as Hxy; [by repeat constructor|].
    constructor; [done|].
    destruct (total (desc_na_last c) x y) as [?|Hyx]; [done|].
    destruct Hy as [|z s Hz]; simpl; [by constructor|].
    case_decide; by constructor.
Defined.

(** ** The per-kind tables

    The tables of the aggregator as lists of (player, count) pairs, in
    which its properties are proved. *)

(** A (player, count) table as a frame. *)
Definition counts_frame (stat : string) (tbl : list (string * Q)) : DataFrame :=
  mkDF [pdn; stat]
       ((λ kv, mkRow {[ pdn := kv.1 ]} {[ stat := kv.2 ]}) <$> tbl).

Definition is_count (q : Q) : Prop := ∃ n : Z, (0 ≤ n)%Z ∧ (q == inject_Z n)%Q.

(** The names of a kind do not clash in the dict of [rename]. *)
Definition kind_ok (kind : string * (string * string)) : bool :=
  let '(stat, (flag, pc)) := kind in
  if bool_decide (stat ∈ count_kinds)
  then bool_decide (stat ≠ pc) && bool_decide (stat ≠ flag)
  else bool_decide (flag ≠ pc).

(** The (player, count) table of a kind, from the rows that qualify. *)
Definition player_counts (pc : string) (agg : list Row → Q) (rs : list Row)
    : list (string * Q) :=
  (λ k, (default "" (head k), agg (filter (λ r, row_key [pc] r = Some k) rs)))
    <$> group_keys [pc] rs.

Definition qualifying (pbp_df : DataFrame) (stat flag pc : string) : list Row :=
  if bool_decide (stat ∈ count_kinds)
  then filter (λ r, notna pc r) (rows pbp_df)
  else filter (λ r, num_eqb flag 1%Q r) (filter (λ r, notna pc r) (rows pbp_df)).

Definition kind_agg (stat flag : string) : list Row → Q :=
  if bool_decide (stat ∈ count_kinds)
  then λ g, inject_Z (Z.of_nat (length g))
  else col_sum flag.

Definition kind_table (pbp_df : DataFrame) (stat flag pc : string)
    : list (string * Q) :=
  player_counts pc (kind_agg stat flag) (qualifying pbp_df stat flag pc).

(** ** merge on a right frame without duplicate keys *)

(** The keys of the rows of a frame. *)
Definition keys_on (on : string) (rs : list Row) : list (option string) :=
  (λ r, txt r !! on) <$> rs.

(** The first right row of the key of a left row. *)
Definition right_match (on : string) (R : list Row) (l : Row) : option Row :=
  head (filter (same_key on l) R).

(** The row of the merge that a left row becomes when the right frame has
    no duplicate key. *)
Definition joined (on : string) (R : list Row) (l : Row) : Row :=
  from_option (join_row l) l (right_match on R l).

(** ** The outer join of the per-kind tables *)

(** The per-kind tables, each under the name of its statistic. *)
Abbreviation tables := (list (string * list (string * Q))).

Definition count_row (stat : string) (kv : string * Q) : Row :=
  mkRow {[ pdn := kv.1 ]} {[ stat := kv.2 ]}.

(** What the join of the tables [T] looks like: one row per player of any
    table, holding exactly the counts that the tables have for the player. *)
Record merged_inv (M : DataFrame) (T : tables) : Prop := {
  mi_columns : columns M = pdn :: T.*1;
  mi_NoDup : NoDup (keys_on pdn (rows M));
  mi_keys : ∀ k, k ∈ keys_on pdn (rows M) ↔
                 ∃ name st tbl, k = Some name ∧ (st, tbl) ∈ T ∧ name ∈ tbl.*1;
  mi_txt : ∀ r c s, r ∈ rows M → txt r !! c = Some s → c = pdn;
  mi_num : ∀ r c q, r ∈ rows M → num r !! c = Some q →
                    ∃ tbl name, (c, tbl) ∈ T ∧ txt r !! pdn = Some name
                                ∧ (name, q) ∈ tbl;
  mi_val : ∀ r st tbl name q, r ∈ rows M → (st, tbl) ∈ T →
                              txt r !! pdn = Some name → (name, q) ∈ tbl →
                              num r !! st = Some q
}.

(** ** From the play table to the joined tables *)

Definition present_kinds (pbp_df : DataFrame)
    (kinds : list (string * (string * string))) :=
  filter (λ kind, kind.2.2 ∈ columns pbp_df) kinds.

(** The tables that the loop appends to [aggregated_stats]. *)
Definition kind_tables (pbp_df : DataFrame)
    (kinds : list (string * (string * string))) : tables :=
  (λ kind, (kind.1, kind_table pbp_df kind.1 kind.2.1 kind.2.2))
    <$> present_kinds pbp_df kinds.

Definition frames_of (T : tables) : list DataFrame :=
  (λ st, counts_frame st.1 st.2) <$> T.

(** The frame that [reduce] builds from the tables. *)
Definition joined_tables (T : tables) : DataFrame :=
  match frames_of T with
  | [] => empty_frame
  | first :: others => foldl outer_on_player first others
  end.

(** What becomes of a row of the joined tables. *)
Definition finish (cols conv : list string) (positions : list Row) (l : Row) : Row :=
  joined pdn positions (cast_row conv (fill_row cols l)).

(** The columns converted to integers: the statistics that have a table. *)
Definition converted (T : tables) : list string :=
  filter (λ stat, stat ∈ pdn :: T.*1) (def_stats_dict.*1).

(** ** The leaderboard builder

    The notions in which the properties of the leaderboards are stated. *)

(** Adjacent rows of a leaderboard carry values in non-increasing order. *)
Definition lb_ordered (stat : string) (lb : Leaderboard) : Prop :=
  ∀ i a b, lb_rows lb !! i = Some a → lb_rows lb !! S i = Some b →
           ∃ x y, num a.2 !! stat = Some x ∧ num b.2 !! stat = Some y
                  ∧ (y <= x)%Q.

(** The two blocks of tab 1 that build a leaderboard, as one builder: from
    the defensive table, or from a weekly or tracking table with its
    grouping and display columns. *)
Inductive LeaderboardInput : Type :=
  | DefensiveTable (defensive_df : DataFrame)
  | WeeklyTable (df_for_leaders : DataFrame) (groupby_cols display_cols : list string).

Definition build_leaderboard `{SortValues} (input : LeaderboardInput)
    (stat_column : string) : result (option Leaderboard) :=
  match input with
  | DefensiveTable defensive_df => defense_leaderboard defensive_df stat_column
  | WeeklyTable df_for_leaders groupby_cols display_cols =>
      stat_leaderboard df_for_leaders groupby_cols display_cols stat_column
  end.

(** The rows that [sort_values] receives, on the columns of the
    leaderboard. *)
Definition pre_sort_table (input : LeaderboardInput) (stat_column : string)
    : list Row :=
  match input with
  | DefensiveTable defensive_df =>
      select_row [pdn; "position"; stat_column] <$> rows defensive_df
  | WeeklyTable df_for_leaders groupby_cols _ =>
      rows (groupby_agg groupby_cols stat_column (col_sum stat_column)
              df_for_leaders)
  end.

(** ** Ties *)

(** A sort is stable when the rows of any one value come out in the order
    in which they went in. *)
Definition stable_sort (S : SortValues) : Prop :=
  ∀ c l v, filter (λ r, num_eqb c v r) (sort_rows c l)
           = filter (λ r, num_eqb c v r) l.

(** The rows of each value stand in the leaderboard as they stand in the
    table before the sort (as far as the leaderboard goes). *)
Definition ties_keep_order (stat : string) (pre out : list Row) : Prop :=
  ∀ v, filter (λ r, num_eqb stat v r) out
       `prefix_of` filter (λ r, num_eqb stat v r) pre.

(** ** What a page shows *)

#[global] Instance result_fmap : FMap result := λ A B f m,
  match m with
  | Ok a => Ok (f a)
  | Raise e => Raise e
  end.

(** The leaderboard that a page shows, if any. *)
Definition leaderboard_shown (p : Page) : option Leaderboard :=
  match p with
  | Stopped => None
  | TopPerformers chart => chart_df <$> chart
  end.

(** [series.mean()]: the sum over the number of cells that are not NaN. *)
Definition col_mean (c : string) (rs : list Row) : Q :=
  (col_sum c rs / inject_Z (Z.of_nat (length (omap (λ r, num r !! c) rs))))%Q.

Definition shown_chart (p : result Page) : option Chart :=
  match p with
  | Ok (TopPerformers chart) => chart
  | _ => None
  end.

(** Rank, player and value of the rows of a leaderboard. *)
Definition leaders (stat_column : string) (lb : Leaderboard)
    : list (Z * option string * option Q) :=
  (λ x, (x.1, txt x.2 !! pdn, num x.2 !! stat_column)) <$> lb_rows lb.

(** ** The player summary, column by column *)

(** The rows of a player. *)
Definition player_rows (weekly_df : DataFrame) (player_name : string) : list Row :=
  filter (λ r, txt_eqb pdn player_name r) (rows weekly_df).

(** The statistics with a positive sum over all the rows of the player. *)
Definition positive_cols (weekly_df : DataFrame) (player_name : string)
    : list string :=
  filter (λ col, has_col weekly_df col
                 ∧ Qlt_bool 0%Q (col_sum col (player_rows weekly_df player_name)))
         (OFFENSE_STATS.*2).

(** The table of the week range from the columns [cols]. *)
Definition range_table (cols : list string) (rs : list Row) (range : Z * Z)
    : list (string * Z) :=
  (λ cv, (cv.1, Qtrunc cv.2))
    <$> filter (λ cv, Qlt_bool 0%Q cv.2)
          ((λ col, (col, col_sum col
                           (filter (λ r, num_between "week" range.1 range.2 r) rs)))
             <$> cols).

#[global] Instance Qlt_dec (x y : Q) : Decision (x < y)%Q.
Proof.
  destruct (Qlt_le_dec x y) as [Hlt|Hle]; [by left|right].
  by apply Qle_not_lt.
Defined.

Definition no_leaders (lb : option Leaderboard) : Prop :=
  match lb with
  | None => True
  | Some l => lb_rows l = []
  end.

(** ** Example seasons

    Small tables on which the definitions are run. *)

Definition cells {V} (l : list (string * V)) : gmap string V := list_to_map l.

Definition pbp_columns : list string :=
  [ "play_id"; "sack"; "sack_player_name"; "interception";
    "interception_player_name"; "fumble_forced";
    "forced_fumble_player_1_player_name"; "pass_defense_1_player_name";
    "fumble"; "fumble_recovery_1_player_name" ].

Definition pbp_example : DataFrame :=
  mkDF pbp_columns
    [ mkRow (cells [("sack_player_name", "B")]) (cells [("sack", 1%Q)]);
      mkRow (cells [("sack_player_name", "C")]) (cells [("sack", 1%Q)]);
      mkRow (cells [("sack_player_name", "B")]) (cells [("sack", 1%Q)]);
      mkRow (cells [("pass_defense_1_player_name", "A")]) (cells [("sack", 0%Q)]);
      mkRow (cells [("sack_player_name", "B")]) (cells [("sack", 1%Q)]);
      mkRow (cells []) (cells [("sack", 0%Q)]) ].

Definition rosters_example : DataFrame :=
  mkDF ["player_name"; "position"; "team"]
    [ mkRow (cells [("player_name", "B"); ("position", "DE"); ("team", "X")]) ∅;
      mkRow (cells [("player_name", "B"); ("position", "LB"); ("team", "Y")]) ∅;
      mkRow (cells [("player_name", "A"); ("position", "CB"); ("team", "X")]) ∅ ].

Definition unwrap {A} (d : A) (m : result A) : A :=
  match m with
  | Ok a => a
  | Raise _ => d
  end.

Definition frames_example : list DataFrame :=
  unwrap [] (aggregated_stats pbp_example def_stats_dict).

Definition defensive_example : DataFrame :=
  unwrap empty_frame (load_and_aggregate_pbp_data pbp_example rosters_example).

Definition sacks_leaders : Leaderboard :=
  default (mkLB [] [])
    (unwrap None (@defense_leaderboard merge_sort_values defensive_example "sacks")).

(** Three players with one sack each. *)
Definition pbp_ties : DataFrame :=
  mkDF pbp_columns
    [ mkRow (cells [("sack_player_name", "A")]) (cells [("sack", 1%Q)]);
      mkRow (cells [("sack_player_name", "B")]) (cells [("sack", 1%Q)]);
      mkRow (cells [("sack_player_name", "C")]) (cells [("sack", 1%Q)]) ].

Definition defensive_ties : DataFrame :=
  unwrap empty_frame (load_and_aggregate_pbp_data pbp_ties rosters_example).

Definition ties_leaders (S : SortValues) : Leaderboard :=
  default (mkLB [] [])
    (unwrap None (@defense_leaderboard S defensive_ties "sacks")).

(** A regular season in progress: three weeks, no postseason game yet. *)
Definition weekly_example : DataFrame :=
  mkDF [pdn; "position"; "season_type"; "week"; "passing_yards"; "rushing_yards"]
    [ mkRow (cells [(pdn, "A"); ("position", "QB"); ("season_type", "REG")])
            (cells [("week", 1%Q); ("passing_yards", 100%Q); ("rushing_yards", 0%Q)]);
      mkRow (cells [(pdn, "A"); ("position", "QB"); ("season_type", "REG")])
            (cells [("week", 2%Q); ("passing_yards", 0%Q); ("rushing_yards", 0%Q)]);
      mkRow (cells [(pdn, "A"); ("position", "QB"); ("season_type", "REG")])
            (cells [("week", 3%Q); ("passing_yards", 50%Q); ("rushing_yards", 0%Q)]);
      mkRow (cells [(pdn, "B"); ("position", "QB"); ("season_type", "REG")])
            (cells [("week", 3%Q); ("passing_yards", 70%Q); ("rushing_yards", 5%Q)]) ].

Definition ngs_passing_example : DataFrame :=
  mkDF [pdn; "season"; "week"; "avg_time_to_throw"]
    [ mkRow (cells [(pdn, "A")])
            (cells [("season", 2024%Q); ("week", 1%Q); ("avg_time_to_throw", 2%Q)]);
      mkRow (cells [(pdn, "A")])
            (cells [("season", 2024%Q); ("week", 2%Q); ("avg_time_to_throw", 4%Q)]);
      mkRow (cells [(pdn, "B")])
            (cells [("season", 2024%Q); ("week", 1%Q); ("avg_time_to_throw", 3%Q)]) ].

Definition ngs_example (t : NgsType) : DataFrame :=
  match t with
  | Passing => ngs_passing_example
  | _ => mkDF [pdn; "season"; "week"; "efficiency"] []
  end.

Definition weekly_post_example : DataFrame :=
  mkDF (columns weekly_example)
    (rows weekly_example
     ++ [ mkRow (cells [(pdn, "B"); ("position", "QB"); ("season_type", "POST")])
                (cells [("week", 19%Q); ("passing_yards", 210%Q)]) ]).

Definition ngs_page (weeks : option (Z * Z)) : result Page :=
  @top_performers merge_sort_values weekly_example ngs_example pbp_example
    rosters_example (mkWidgets 2024 All NextGenStats 0 Passing weeks).

Definition summary_example : PlayerSummary :=
  default (mkSummary [] [] [] empty_frame)
    (unwrap None (player_search weekly_example "A" (Some (2, 2)%Z))).

(** ** Plays and players

    The plays that count for a player under a kind: the player column
    names the player and, for the kinds that sum a flag, the flag is 1. *)

Definition counts_for (stat flag pc name : string) (play : Row) : Prop :=
  txt play !! pc = Some name ∧ (stat ∈ count_kinds ∨ num_eqb flag 1%Q play).

#[global] Instance counts_for_dec stat flag pc name play :
  Decision (counts_for stat flag pc name play).
Proof. unfold counts_for. apply _. Defined.

Definition plays_of (pbp_df : DataFrame) (stat flag pc name : string) : list Row :=
  filter (counts_for stat flag pc name) (rows pbp_df).

(** A computation that fails with no other exception than [KeyError]. *)
Definition only_KeyError {A} (m : result A) : Prop :=
  ∀ e, m = Raise e → ∃ c, e = KeyError c.

(** The flag column of a kind is read only by the kinds that sum it. *)
Definition flag_in_place (pbp_df : DataFrame)
    (kind : string * (string * string)) : Prop :=
  kind.2.2 ∈ columns pbp_df →
  kind.1 ∈ count_kinds ∨ kind.2.1 ∈ columns pbp_df.

(** The rows of [player_positions]: the roster on its two columns, renamed,
    one row per name. *)
Definition player_positions (rosters_df : DataFrame) : list Row :=
  rows (drop_duplicates pdn
          (rename {[ "player_name" := pdn ]}
             (mkDF ["player_name"; "position"]
                (select_row ["player_name"; "position"] <$> rows rosters_df)))).

(** The position that the roster gives a player: that of the first entry
    of the name. *)
Definition roster_position (rosters_df : DataFrame) (name : string)
    : option string :=
  r ← head (filter (λ r, txt r !! "player_name" = Some name) (rows rosters_df));
  txt r !! "position".

(** ** The candidates of a leaderboard

    The rows that compete for the 20 places: on the defensive path those
    with a positive value, on the other paths every group. *)
Definition candidates (input : LeaderboardInput) (stat_column : string)
    : list Row :=
  match input with
  | DefensiveTable _ =>
      filter (λ r, num_gtb stat_column 0%Q r) (pre_sort_table input stat_column)
  | WeeklyTable _ _ _ => pre_sort_table input stat_column
  end.

(** ** An offensive page *)

Definition offense_widgets (weeks : option (Z * Z)) : Widgets :=
  mkWidgets 2024 All Offense 0 Passing weeks.

Definition offense_chart_example : Chart :=
  default (mkChart (mkLB [] []) "" (None, None))
    (shown_chart (@top_performers merge_sort_values weekly_example ngs_example
                    pbp_example rosters_example (offense_widgets (Some (1, 2)%Z)))).

Definition ngs_chart_example : Chart :=
  default (mkChart (mkLB [] []) "" (None, None)) (shown_chart (ngs_page None)).

(** ** What the page needs of its tables

    The week column with a number in at least one row: the bounds of the
    week slider are its minimum and maximum. *)
Definition has_weeks (weekly_df : DataFrame) : Prop :=
  "week" ∈ columns weekly_df
  ∧ ∃ r, r ∈ rows weekly_df ∧ is_Some (num r !! "week").

Definition ngs_schema (ngs_df : DataFrame) : Prop :=
  "season" ∈ columns ngs_df ∧ pdn ∈ columns ngs_df
  ∧ ∃ c, c ∈ columns ngs_df ∧ c ∈ NGS_TRANSLATIONS.*1.

(** ** The performance chart of the player summary (tab 2)

    [d.get(k)]: no exception on a missing key. *)
Definition dict_get_opt (d : list (string * string)) (k : option string)
    : option string :=
  key ← k; kv ← list_find (λ kv, kv.1 = key) d; Some kv.2.2.

(** The title key and the column of the line chart; [None] when the guard
    [if chart_stat_col] fails and no chart is drawn. *)
Definition performance_chart (cols_with_data : list string) (choice : nat)
    : option (string * string) :=
  let chart_options := filter (λ kv, kv.2 ∈ cols_with_data) OFFENSE_STATS in
  let chart_stat_key := selectbox (chart_options.*1) choice in
  let chart_stat_col := dict_get_opt chart_options chart_stat_key in
  match chart_stat_key, chart_stat_col with
  | Some key, Some col => if bool_decide (col = "") then None else Some (key, col)
  | _, _ => None
  end.

(** ** A defensive page *)

Definition defense_chart_example : Chart :=
  default (mkChart (mkLB [] []) "" (None, None))
    (shown_chart (@top_performers merge_sort_values weekly_example ngs_example
                    pbp_example rosters_example
                    (mkWidgets 2024 All Defense 0 Passing None))).

(** ** The headers of the tables shown

    [COLUMN_RENAME_MAP]: in a dict display a later entry of the same key
    replaces the earlier one. *)
Definition COLUMN_RENAME_MAP : gmap string string :=
  foldl (λ m kv, <[kv.1 := kv.2]> m) ∅
    ([ (pdn, "Player"); ("position", "Pos"); ("week", "Week") ]
     ++ ((λ kv, (kv.2, kv.1)) <$> OFFENSE_STATS)
     ++ ((λ kv, (kv.2, kv.1)) <$> DEFENSE_STATS)).

(** The header under which [df.rename(columns=COLUMN_RENAME_MAP)] shows a
    column. *)
Definition header (col : string) : string := rename_col COLUMN_RENAME_MAP col.

(** * Properties *)

(** ** Numbers *)

Lemma Qtrunc_inject_Z (q : Q) (n : Z) : (q == inject_Z n)%Q → Qtrunc q = n.
Proof.
  destruct q as [a d]. unfold Qeq, Qtrunc, inject_Z. simpl. intros E.
  rewrite Z.mul_1_r in E. subst a. apply Z.quot_mul. lia.
Qed.

Lemma inject_Z_succ (n : nat) :
  (1 + inject_Z (Z.of_nat n) == inject_Z (Z.of_nat (S n)))%Q.
Proof.
  rewrite Nat2Z.inj_succ, <- Z.add_1_l, inject_Z_plus. reflexivity.
Qed.

(** Summing a flag over rows where it equals 1 counts the rows. *)
Lemma col_sum_ones (c : string) (rs : list Row) :
  Forall (λ r, num_eqb c 1%Q r) rs →
  (col_sum c rs == inject_Z (Z.of_nat (length rs)))%Q.
Proof.
  unfold col_sum. induction 1 as [|r rs Hr _ IH]; [reflexivity|].
  unfold num_eqb in Hr. simpl. destruct (num r !! c) as [q|]; [|done].
  apply Is_true_true, Qeq_bool_iff in Hr. simpl.
  rewrite Hr, IH. apply inject_Z_succ.
Qed.

(** ** groupby *)

Lemma row_key_single (c : string) (r : Row) :
  row_key [c] r = (λ s, [s]) <$> txt r !! c.
Proof. unfold row_key. simpl. by destruct (txt r !! c). Qed.

Lemma group_keys_NoDup (by_ : list string) (rs : list Row) :
  NoDup (group_keys by_ rs).
Proof.
  unfold group_keys. rewrite merge_sort_Permutation. apply NoDup_remove_dups.
Qed.

Lemma elem_of_group_keys (by_ : list string) (rs : list Row) (k : list string) :
  k ∈ group_keys by_ rs ↔ ∃ r, r ∈ rs ∧ row_key by_ r = Some k.
Proof.
  unfold group_keys.
  rewrite merge_sort_Permutation, elem_of_remove_dups, list_elem_of_omap.
  done.
Qed.

Lemma group_keys_single (c : string) (rs : list Row) (k : list string) :
  k ∈ group_keys [c] rs ↔ ∃ s, k = [s] ∧ ∃ r, r ∈ rs ∧ txt r !! c = Some s.
Proof.
  rewrite elem_of_group_keys. split.
  - intros (r & Hr & Hk). rewrite row_key_single in Hk.
    destruct (txt r !! c) as [s|] eqn:E; simplify_eq/=. eauto.
  - intros (s & -> & r & Hr & E). exists r. split; [done|].
    by rewrite row_key_single, E.
Qed.

(** ** rename *)

Lemma rename_keys_singleton {V} (m : gmap string string) (c : string) (v : V) :
  rename_keys m ({[ c := v ]} : gmap string V) = {[ rename_col m c := v ]}.
Proof.
  unfold rename_keys. rewrite map_to_list_singleton. simpl.
  apply insert_empty.
Qed.

Lemma key_cells_single (c s : string) : key_cells [c] [s] = {[ c := s ]}.
Proof. unfold key_cells. simpl. apply insert_empty. Qed.

Lemma def_stats_dict_ok : Forall (λ kind, kind_ok kind) def_stats_dict.
Proof. repeat constructor. Qed.

Lemma groupby_agg_single_renamed (m : gmap string string) (pc out stat : string)
    (agg : list Row → Q) (df : DataFrame) :
  rename_col m pc = pdn → rename_col m out = stat →
  rename m (groupby_agg [pc] out agg df) =
  counts_frame stat
    ((λ k, (default "" (head k), agg (filter (λ r, row_key [pc] r = Some k) (rows df))))
       <$> group_keys [pc] (rows df)).
Proof.
  intros Hpc Hout. unfold rename, groupby_agg, counts_frame. simpl.
  rewrite Hpc, Hout. f_equal.
  rewrite <- !list_fmap_compose. apply Forall_fmap_ext_1, Forall_forall.
  intros k Hk. apply group_keys_single in Hk as (s & -> & _). simpl.
  by rewrite key_cells_single, !rename_keys_singleton, Hpc, Hout.
Qed.

(** ** Exceptions *)

Lemma bind_Ok {A B} (m : result A) (f : A → result B) (b : B) :
  m ≫= f = Ok b ↔ ∃ a, m = Ok a ∧ f a = Ok b.
Proof.
  destruct m as [a|e]; simpl.
  - split; [eauto|]. by intros (a' & [= ->] & H).
  - split; [done|]. by intros (a' & ? & _).
Qed.

Lemma getcol_Ok (df : DataFrame) (c : string) :
  getcol df c = Ok () ↔ c ∈ columns df.
Proof.
  unfold getcol, has_col. case_bool_decide; split; done.
Qed.

Lemma getcols_Ok (df : DataFrame) (cs : list string) :
  getcols df cs = Ok () ↔ Forall (λ c, c ∈ columns df) cs.
Proof.
  induction cs as [|c cs IH]; simpl.
  - split; [constructor|done].
  - rewrite bind_Ok, Forall_cons, <- IH, <- getcol_Ok.
    split; [by intros ([] & ? & ?)|intros [? ?]; by exists ()].
Qed.

Ltac inv_bind H :=
  repeat match type of H with
         | _ ≫= _ = Ok _ =>
             let a := fresh "a" in
             let Ha := fresh "Ha" in
             apply bind_Ok in H as (a & Ha & H)
         end.

(** ** The per-kind tables *)

Lemma stat_frame_shape (pbp_df : DataFrame) (stat flag pc : string) (f : DataFrame) :
  kind_ok (stat, (flag, pc)) →
  stat_frame pbp_df stat flag pc = Ok f →
  f = counts_frame stat (kind_table pbp_df stat flag pc).
Proof.
  unfold kind_ok, stat_frame, kind_table, qualifying, kind_agg.
  intros Hok H. inv_bind H. injection H as <-.
  assert (rename_col (<[pc:=pdn]> (<[flag:=stat]> ∅)) pc = pdn) as Hpc.
  { unfold rename_col. by rewrite lookup_insert_eq. }
  case_bool_decide as Hkind.
  - apply andb_True in Hok as [H1 H2].
    apply bool_decide_unpack in H1, H2.
    unfold groupby_size in Ha. inv_bind Ha. injection Ha as <-.
    apply groupby_agg_single_renamed; [done|].
    unfold rename_col.
    by rewrite lookup_insert_ne, lookup_insert_ne, lookup_empty.
  - apply bool_decide_unpack in Hok.
    inv_bind Ha. unfold groupby_sum in Ha. inv_bind Ha. injection Ha as <-.
    apply groupby_agg_single_renamed; [done|].
    unfold rename_col. by rewrite lookup_insert_ne, lookup_insert_eq.
Qed.

Lemma stat_frame_Ok (pbp_df : DataFrame) (stat flag pc : string) :
  pc ∈ columns pbp_df →
  (stat ∈ count_kinds ∨ flag ∈ columns pbp_df) →
  ∃ f, stat_frame pbp_df stat flag pc = Ok f.
Proof.
  intros Hpc Hflag. unfold stat_frame.
  case_bool_decide as Hkind.
  - unfold groupby_size.
    rewrite (proj2 (getcols_Ok _ _)) by (by repeat constructor).
    simpl. eauto.
  - destruct Hflag as [?|Hflag]; [done|].
    unfold groupby_sum. simpl.
    rewrite !(proj2 (getcol_Ok _ _)) by done. simpl. eauto.
Qed.

Lemma player_counts_NoDup (pc : string) (agg : list Row → Q) (rs : list Row) :
  NoDup (player_counts pc agg rs).*1.
Proof.
  unfold player_counts. rewrite <- list_fmap_compose.
  apply NoDup_fmap_2_strong; [|apply group_keys_NoDup].
  intros k1 k2 H1 H2.
  apply group_keys_single in H1 as (s1 & -> & _).
  apply group_keys_single in H2 as (s2 & -> & _). simpl. by intros ->.
Qed.

Lemma elem_of_player_counts (pc : string) (agg : list Row → Q) (rs : list Row)
    (name : string) (q : Q) :
  (name, q) ∈ player_counts pc agg rs ↔
  (∃ r, r ∈ rs ∧ txt r !! pc = Some name)
  ∧ q = agg (filter (λ r, txt r !! pc = Some name) rs).
Proof.
  unfold player_counts. rewrite list_elem_of_fmap.
  assert (∀ s, filter (λ r, row_key [pc] r = Some [s]) rs
               = filter (λ r, txt r !! pc = Some s) rs) as Hfil.
  { intros s. apply list_filter_iff. intros r. rewrite row_key_single.
    destruct (txt r !! pc); simpl; naive_solver. }
  split.
  - intros (k & [= -> ->] & Hk). apply group_keys_single in Hk as (s & -> & Hr).
    simpl. by rewrite Hfil.
  - intros [Hr ->]. exists [name]. simpl. rewrite Hfil. split; [done|].
    apply group_keys_single. eauto.
Qed.

(** Each count of a per-kind table is the number of qualifying plays
    attributed to the player: a positive whole number. *)
Lemma kind_table_count (pbp_df : DataFrame) (stat flag pc name : string) (q : Q) :
  (name, q) ∈ kind_table pbp_df stat flag pc →
  let n := length (filter (λ r, txt r !! pc = Some name)
                          (qualifying pbp_df stat flag pc)) in
  (q == inject_Z (Z.of_nat n))%Q ∧ 0 < n.
Proof.
  unfold kind_table. intros [(r & Hr & Hname) ->]%elem_of_player_counts. simpl.
  split.
  - unfold kind_agg, qualifying. case_bool_decide; [reflexivity|].
    apply col_sum_ones, Forall_forall. intros r' Hr'.
    apply list_elem_of_filter in Hr' as [_ Hr'].
    by apply list_elem_of_filter in Hr' as [? _].
  - assert (r ∈ filter (λ r, txt r !! pc = Some name)
                       (qualifying pbp_df stat flag pc)) as Hin
      by (by apply list_elem_of_filter).
    destruct (filter _ _); [by apply elem_of_nil in Hin|simpl; lia].
Qed.

Lemma kind_table_is_count (pbp_df : DataFrame) (stat flag pc : string) :
  Forall (λ kv, is_count kv.2) (kind_table pbp_df stat flag pc).
Proof.
  apply Forall_forall. intros [name q] Hin.
  apply kind_table_count in Hin as [Hq _]. simpl.
  eexists. split; [|exact Hq]. lia.
Qed.

(** ** merge on a right frame without duplicate keys *)

Lemma filter_fmap_list {A B} (f : A → B) (P : B → Prop)
    `{∀ x, Decision (P x)} (l : list A) :
  filter P (f <$> l) = f <$> filter (λ x, P (f x)) l.
Proof.
  induction l as [|x l IH]; [done|].
  rewrite fmap_cons, !filter_cons. case_decide; by rewrite IH.
Qed.

Section merge_facts.
Context (on : string).
Implicit Types (l m r : Row) (L R : list Row).

Lemma right_match_Some R l m :
  right_match on R l = Some m → m ∈ R ∧ same_key on l m.
Proof.
  unfold right_match. intros H. apply head_Some_elem_of in H.
  apply list_elem_of_filter in H. tauto.
Qed.

Lemma right_match_None R l m :
  right_match on R l = None → m ∈ R → ¬ same_key on l m.
Proof.
  unfold right_match. intros H Hm Hk.
  assert (m ∈ filter (same_key on l) R) as Hin by (by apply list_elem_of_filter).
  destruct (filter _ _); [by apply elem_of_nil in Hin|done].
Qed.

Lemma filter_same_key_unique R l :
  NoDup (keys_on on R) →
  filter (same_key on l) R = option_list (right_match on R l).
Proof.
  unfold right_match. induction R as [|m R IH]; [done|].
  intros [Hm HR]%NoDup_cons. rewrite filter_cons. case_decide as Hk.
  - simpl. f_equal. specialize (IH HR).
    destruct (filter (same_key on l) R) as [|m' ?] eqn:E; [done|].
    exfalso. apply Hm.
    assert (m' ∈ filter (same_key on l) R) as Hin by (rewrite E; left).
    apply list_elem_of_filter in Hin as [Hk' Hin].
    unfold keys_on. apply list_elem_of_fmap. exists m'. split; [|done].
    unfold same_key in *. congruence.
  - by apply IH.
Qed.

Lemma join_row_key l m :
  same_key on l m → txt (join_row l m) !! on = txt l !! on.
Proof.
  unfold same_key, join_row. simpl. intros Hk. rewrite lookup_union.
  rewrite <- Hk. by destruct (txt l !! on).
Qed.

Lemma joined_key R l : txt (joined on R l) !! on = txt l !! on.
Proof.
  unfold joined. destruct (right_match on R l) as [m|] eqn:E; [|done].
  apply right_match_Some in E as [_ Hk]. by apply join_row_key.
Qed.

Lemma merge_rows_unique (left right : DataFrame) (h : how) :
  NoDup (keys_on on (rows right)) →
  rows (merge left right on h) =
    (joined on (rows right) <$> rows left)
    ++ match h with
       | Left => []
       | Outer => filter (λ r, Forall (λ l, ¬ same_key on l r) (rows left))
                         (rows right)
       end.
Proof.
  intros Hnd. unfold merge. simpl. f_equal.
  induction (rows left) as [|l L IH]; [done|].
  simpl. rewrite IH. f_equal.
  rewrite filter_same_key_unique by done. unfold joined.
  by destruct (right_match on (rows right) l).
Qed.

Lemma merge_outer_keys (left right : DataFrame) :
  NoDup (keys_on on (rows right)) →
  keys_on on (rows (merge left right on Outer)) =
    keys_on on (rows left)
    ++ filter (λ k, k ∉ keys_on on (rows left)) (keys_on on (rows right)).
Proof.
  intros Hnd. rewrite merge_rows_unique by done.
  unfold keys_on at 1. rewrite fmap_app. f_equal.
  - rewrite <- list_fmap_compose.
    apply Forall_fmap_ext_1, Forall_forall. intros l _. apply joined_key.
  - unfold keys_on. rewrite filter_fmap_list. f_equal.
    apply list_filter_iff. intros r. simpl. rewrite Forall_forall.
    rewrite list_elem_of_fmap. unfold same_key. split.
    + intros Hno (l & Hl & Hin). by apply (Hno l Hin).
    + intros Hno l Hin Hl. apply Hno. by exists l.
Qed.

Lemma merge_outer_NoDup (left right : DataFrame) :
  NoDup (keys_on on (rows left)) → NoDup (keys_on on (rows right)) →
  NoDup (keys_on on (rows (merge left right on Outer))).
Proof.
  intros HL HR. rewrite merge_outer_keys by done.
  apply NoDup_app. split_and!; [done| |by apply NoDup_filter].
  intros k Hk [Hk' _]%list_elem_of_filter. done.
Qed.

Lemma drop_duplicates_from_NoDup (seen : list (option string)) (rs : list Row) :
  NoDup (keys_on on (drop_duplicates_from on seen rs))
  ∧ ∀ k, k ∈ keys_on on (drop_duplicates_from on seen rs) → k ∉ seen.
Proof.
  revert seen. induction rs as [|r rs IH]; intros seen; simpl.
  - split; [constructor|]. intros k Hk. by apply elem_of_nil in Hk.
  - case_bool_decide as Hseen; [apply IH|].
    destruct (IH (txt r !! on :: seen)) as [Hnd Hnot]. simpl. split.
    + constructor; [|done]. intros Hin. apply Hnot in Hin.
      apply Hin. left.
    + intros k [->|Hk]%elem_of_cons; [done|].
      apply Hnot in Hk. intros ?. apply Hk. by right.
Qed.

Lemma drop_duplicates_NoDup (df : DataFrame) :
  NoDup (keys_on on (rows (drop_duplicates on df))).
Proof. apply drop_duplicates_from_NoDup. Qed.
End merge_facts.

(** ** The outer join of the per-kind tables *)

Lemma counts_frame_keys (stat : string) (tbl : list (string * Q)) :
  keys_on pdn (rows (counts_frame stat tbl)) = Some <$> tbl.*1.
Proof.
  unfold keys_on, counts_frame. simpl. rewrite <- !list_fmap_compose.
  apply Forall_fmap_ext_1, Forall_forall. intros kv _. simpl.
  by rewrite lookup_singleton_eq.
Qed.

Lemma counts_frame_NoDup (stat : string) (tbl : list (string * Q)) :
  NoDup tbl.*1 → NoDup (keys_on pdn (rows (counts_frame stat tbl))).
Proof.
  intros H. rewrite counts_frame_keys. by apply (NoDup_fmap_2 Some).
Qed.

Lemma NoDup_fst_eq {A B} (l : list (A * B)) (a : A) (b1 b2 : B) :
  NoDup l.*1 → (a, b1) ∈ l → (a, b2) ∈ l → b1 = b2.
Proof.
  induction l as [|[a' b'] l IH]; intros Hnd H1 H2.
  - by apply elem_of_nil in H1.
  - apply NoDup_cons in Hnd as [Hnot Hnd]. simpl in Hnot.
    assert (∀ b, (a', b) ∈ l → False) as Hfresh.
    { intros b Hb. apply Hnot, list_elem_of_fmap. by exists (a', b). }
    apply elem_of_cons in H1 as [H1|H1]; apply elem_of_cons in H2 as [H2|H2];
      simplify_eq; [done| | |by apply IH]; exfalso; eauto.
Qed.

Lemma merged_inv_first (stat : string) (tbl : list (string * Q)) :
  NoDup tbl.*1 → merged_inv (counts_frame stat tbl) [(stat, tbl)].
Proof.
  intros Hnd. split.
  - done.
  - by apply counts_frame_NoDup.
  - intros k. rewrite counts_frame_keys, list_elem_of_fmap. split.
    + intros (name & -> & Hin). exists name, stat, tbl.
      split_and!; [done|left|done].
    + intros (name & st & tbl' & -> & [= -> ->]%list_elem_of_singleton & Hin).
      eauto.
  - intros r c s (kv & -> & _)%list_elem_of_fmap. simpl.
    by intros [-> _]%lookup_singleton_Some.
  - intros r c q (kv & -> & Hkv)%list_elem_of_fmap. simpl.
    intros [-> <-]%lookup_singleton_Some. exists tbl, kv.1.
    rewrite lookup_singleton_eq. destruct kv. split_and!; [left|done|done].
  - intros r st tbl' name q (kv & -> & Hkv)%list_elem_of_fmap
      [= -> ->]%list_elem_of_singleton. destruct kv as [name' q']. simpl.
    rewrite !lookup_singleton_eq. intros [= ->] Hq.
    f_equal. by eapply NoDup_fst_eq.
Qed.

Lemma elem_of_merge_outer (M R : DataFrame) (r : Row) :
  NoDup (keys_on pdn (rows R)) →
  r ∈ rows (outer_on_player M R) ↔
  (∃ l, l ∈ rows M ∧ r = joined pdn (rows R) l)
  ∨ (r ∈ rows R ∧ Forall (λ l, ¬ same_key pdn l r) (rows M)).
Proof.
  intros Hnd. unfold outer_on_player. rewrite merge_rows_unique by done.
  rewrite elem_of_app, list_elem_of_fmap, list_elem_of_filter.
  split; (intros [(l & H1 & H2)|[H1 H2]]; [left; by exists l|by right]).
Qed.

Lemma right_match_counts (stat : string) (tbl : list (string * Q)) (l m : Row) :
  right_match pdn (rows (counts_frame stat tbl)) l = Some m →
  ∃ name q, m = count_row stat (name, q) ∧ (name, q) ∈ tbl
            ∧ txt l !! pdn = Some name.
Proof.
  intros [Hin Hk]%right_match_Some.
  apply list_elem_of_fmap in Hin as ([name q] & -> & Hin).
  exists name, q. split_and!; [done|done|].
  unfold same_key in Hk. simpl in Hk. by rewrite lookup_singleton_eq in Hk.
Qed.

Lemma right_match_counts_None (stat : string) (tbl : list (string * Q))
    (l : Row) (name : string) (q : Q) :
  right_match pdn (rows (counts_frame stat tbl)) l = None →
  txt l !! pdn = Some name → (name, q) ∉ tbl.
Proof.
  intros Hnone Hl Hin.
  apply (right_match_None pdn _ l (count_row stat (name, q))) in Hnone.
  - apply Hnone. unfold same_key. simpl. by rewrite lookup_singleton_eq.
  - apply list_elem_of_fmap. by exists (name, q).
Qed.

Lemma merged_inv_step (M : DataFrame) (T : tables) (stat : string)
    (tbl : list (string * Q)) :
  merged_inv M T → NoDup tbl.*1 → stat ∉ T.*1 → stat ≠ pdn →
  merged_inv (outer_on_player M (counts_frame stat tbl)) (T ++ [(stat, tbl)]).
Proof.
  intros [Hcols HndM Hkeys Htxt Hnum Hval] Hnd Hfresh Hpdn.
  pose proof (counts_frame_NoDup stat tbl Hnd) as HndR.
  assert (∀ l, l ∈ rows M → num l !! stat = None) as Hnone.
  { intros l Hl. destruct (num l !! stat) as [q|] eqn:E; [|done].
    destruct (Hnum l stat q Hl E) as (tbl' & _ & Hin & _).
    exfalso. apply Hfresh, list_elem_of_fmap. by exists (stat, tbl'). }
  split.
  - unfold outer_on_player, merge. simpl. rewrite Hcols, fmap_app. simpl.
    f_equal. f_equal. rewrite filter_cons, decide_False by (intros ?; done).
    by rewrite filter_cons, decide_True, filter_nil by done.
  - by apply merge_outer_NoDup.
  - intros k. unfold outer_on_player. rewrite merge_outer_keys by done.
    rewrite elem_of_app, list_elem_of_filter, Hkeys, counts_frame_keys.
    rewrite list_elem_of_fmap. setoid_rewrite elem_of_app.
    setoid_rewrite list_elem_of_singleton. split.
    + intros [(name & st & tbl' & -> & Hin & Hname)|[_ (name & -> & Hname)]].
      * exists name, st, tbl'. auto.
      * exists name, stat, tbl. auto.
    + intros (name & st & tbl' & -> & [Hin|[= -> ->]] & Hname).
      * left. eauto 6.
      * destruct (decide (Some name ∈ keys_on pdn (rows M))) as [Hk|Hk].
        -- left. by apply Hkeys.
        -- right. split; [by rewrite <- Hkeys|eauto].
  - intros r c s Hr.
    apply elem_of_merge_outer in Hr as [(l & Hl & ->)|[Hr _]]; [| |done].
    + unfold joined.
      destruct (right_match _ _ l) as [m|] eqn:E; simpl; [|by eapply Htxt].
      apply right_match_counts in E as (name & q & -> & _ & _). simpl.
      intros [?|[_ [-> _]%lookup_singleton_Some]]%lookup_union_Some_raw;
        [by eapply Htxt|done].
    + apply list_elem_of_fmap in Hr as (kv & -> & _). simpl.
      by intros [-> _]%lookup_singleton_Some.
  - intros r c q Hr.
    apply elem_of_merge_outer in Hr as [(l & Hl & ->)|[Hr _]]; [| |done].
    + rewrite joined_key. unfold joined.
      destruct (right_match _ _ l) as [m|] eqn:E; simpl.
      * apply right_match_counts in E as (name & q' & -> & Hin & Hname). simpl.
        intros [Hq|[_ [-> <-]%lookup_singleton_Some]]%lookup_union_Some_raw.
        -- destruct (Hnum l c q Hl Hq) as (tbl' & name' & ? & ? & ?).
           exists tbl', name'. rewrite elem_of_app. auto.
        -- exists tbl, name. rewrite elem_of_app, list_elem_of_singleton. auto.
      * intros Hq. destruct (Hnum l c q Hl Hq) as (tbl' & name' & ? & ? & ?).
        exists tbl', name'. rewrite elem_of_app. auto.
    + apply list_elem_of_fmap in Hr as ([name q'] & -> & Hin). simpl.
      intros [-> <-]%lookup_singleton_Some. exists tbl, name.
      rewrite elem_of_app, list_elem_of_singleton, lookup_singleton_eq. auto.
  - intros r st tbl' name q Hr Hin.
    apply elem_of_merge_outer in Hr as [(l & Hl & ->)|[Hr Hno]]; [| |done];
      apply elem_of_app in Hin as [Hin|Hin].
    + rewrite joined_key. intros Hname Hq.
      specialize (Hval l st tbl' name q Hl Hin Hname Hq).
      unfold joined. destruct (right_match _ _ l); simpl; [|done].
      by apply lookup_union_Some_l.
    + apply list_elem_of_singleton in Hin as [= -> ->].
      rewrite joined_key. intros Hname Hq. unfold joined.
      destruct (right_match _ _ l) as [m|] eqn:E; simpl.
      * apply right_match_counts in E as (name' & q' & -> & Hin' & Hname').
        simpl. rewrite lookup_union_r by (by apply Hnone).
        rewrite lookup_singleton_eq. f_equal.
        assert (name' = name) as -> by congruence.
        by eapply NoDup_fst_eq.
      * exfalso. by eapply right_match_counts_None.
    + apply list_elem_of_fmap in Hr as ([name' q'] & -> & Hin').
      simpl. rewrite lookup_singleton_eq. intros [= ->] Hq.
      exfalso.
      assert (Some name ∈ keys_on pdn (rows M)) as Hk.
      { apply Hkeys. exists name, st, tbl'. split_and!; [done|done|].
        apply list_elem_of_fmap. by exists (name, q). }
      apply list_elem_of_fmap in Hk as (l & Hl & Hl').
      rewrite Forall_forall in Hno. apply (Hno l Hl').
      unfold same_key. simpl. by rewrite lookup_singleton_eq.
    + apply list_elem_of_singleton in Hin as [= -> ->].
      apply list_elem_of_fmap in Hr as ([name' q'] & -> & Hin').
      simpl. rewrite !lookup_singleton_eq. intros [= ->] Hq.
      f_equal. by eapply NoDup_fst_eq.
Qed.

(** ** From the play table to the joined tables *)

Lemma aggregated_stats_shape (pbp_df : DataFrame)
    (kinds : list (string * (string * string))) (frames : list DataFrame) :
  Forall (λ kind, kind_ok kind) kinds →
  aggregated_stats pbp_df kinds = Ok frames →
  frames = frames_of (kind_tables pbp_df kinds).
Proof.
  unfold kind_tables, present_kinds, frames_of.
  intros Hok. revert frames.
  induction Hok as [|[stat [flag pc]] kinds Hk _ IH]; intros frames H.
  - by injection H as <-.
  - simpl in H. unfold has_col in H. rewrite filter_cons. simpl.
    case_bool_decide as Hpc.
    + rewrite decide_True by done. inv_bind H. injection H as <-.
      rewrite !fmap_cons. simpl. f_equal; [|by apply IH].
      by apply stat_frame_shape.
    + rewrite decide_False by done. by apply IH.
Qed.

Lemma aggregated_stats_Ok (pbp_df : DataFrame)
    (kinds : list (string * (string * string))) :
  Forall (λ kind, kind.2.2 ∈ columns pbp_df →
                  kind.1 ∈ count_kinds ∨ kind.2.1 ∈ columns pbp_df) kinds →
  ∃ frames, aggregated_stats pbp_df kinds = Ok frames.
Proof.
  induction 1 as [|[stat [flag pc]] kinds Hk _ [frames IH]]; simpl in *.
  - eauto.
  - unfold has_col. case_bool_decide as Hpc; [|eauto].
    destruct (stat_frame_Ok pbp_df stat flag pc Hpc (Hk Hpc)) as [f ->].
    simpl. rewrite IH. simpl. eauto.
Qed.

Lemma merged_inv_foldl (T' : tables) : ∀ (M : DataFrame) (T : tables),
  merged_inv M T →
  Forall (λ st, NoDup st.2.*1) T' →
  NoDup (T ++ T').*1 → pdn ∉ T'.*1 →
  merged_inv (foldl outer_on_player M (frames_of T')) (T ++ T').
Proof.
  induction T' as [|[stat tbl] T' IH]; intros M T HM Hnd Hstats Hpdn.
  - by rewrite app_nil_r.
  - simpl. apply Forall_cons in Hnd as [Hnd Hnd'].
    apply not_elem_of_cons in Hpdn as [Hne Hpdn]. simpl in *.
    rewrite (cons_middle _ T T'), (assoc_L (++)) in Hstats |- *.
    apply IH; [|done|done|done].
    apply merged_inv_step; [done|done| |done].
    rewrite fmap_app in Hstats. apply NoDup_app in Hstats as [Hstats _].
    rewrite fmap_app in Hstats. apply NoDup_app in Hstats as (_ & Hdisj & _).
    intros Hin. apply (Hdisj stat Hin). left.
Qed.

Lemma kind_tables_stats (pbp_df : DataFrame)
    (kinds : list (string * (string * string))) :
  (kind_tables pbp_df kinds).*1 = (present_kinds pbp_df kinds).*1.
Proof.
  unfold kind_tables. rewrite <- list_fmap_compose.
  by apply Forall_fmap_ext_1, Forall_forall.
Qed.

Lemma kind_tables_NoDup (pbp_df : DataFrame)
    (kinds : list (string * (string * string))) :
  Forall (λ st, NoDup st.2.*1) (kind_tables pbp_df kinds).
Proof.
  unfold kind_tables. apply Forall_fmap, Forall_forall. intros kind _.
  simpl. apply player_counts_NoDup.
Qed.

Lemma present_kinds_sublist (pbp_df : DataFrame)
    (kinds : list (string * (string * string))) :
  (present_kinds pbp_df kinds).*1 `sublist_of` kinds.*1.
Proof. apply fmap_sublist, sublist_filter. Qed.

Lemma def_stats_names_NoDup : NoDup (def_stats_dict.*1).
Proof. apply (bool_decide_unpack _). by vm_compute. Qed.

Lemma def_stats_names_not_pdn : pdn ∉ def_stats_dict.*1.
Proof. apply (bool_decide_unpack _). by vm_compute. Qed.

Lemma joined_tables_inv (pbp_df : DataFrame) :
  let T := kind_tables pbp_df def_stats_dict in
  T ≠ [] → merged_inv (joined_tables T) T.
Proof.
  intros T HT. unfold joined_tables.
  pose proof (kind_tables_NoDup pbp_df def_stats_dict) as Hnd.
  pose proof (present_kinds_sublist pbp_df def_stats_dict) as Hsub.
  rewrite <- kind_tables_stats in Hsub. fold T in Hnd, Hsub.
  destruct T as [|[stat tbl] T']; [done|]. simpl.
  apply Forall_cons in Hnd as [Hnd Hnd'].
  apply (merged_inv_foldl T' _ [(stat, tbl)]).
  - by apply merged_inv_first.
  - done.
  - eapply sublist_NoDup; [apply def_stats_names_NoDup|exact Hsub].
  - intros Hin. apply def_stats_names_not_pdn.
    eapply elem_of_sublist; [|exact Hsub]. by right.
Qed.

(** ** fillna, astype and the join with the roster *)

Lemma fill_row_Some (cs : list string) (r : Row) (c : string) (q : Q) :
  num r !! c = Some q → num (fill_row cs r) !! c = Some q.
Proof.
  intros Hq. unfold fill_row. simpl. induction cs as [|c' cs IH]; [done|].
  simpl. destruct (notna c' r) eqn:E; [done|].
  rewrite lookup_insert_ne; [done|]. intros ->.
  unfold notna in E. rewrite Hq in E. by destruct (txt r !! c).
Qed.

Lemma fill_row_None (cs : list string) (r : Row) (c : string) :
  c ∈ cs → txt r !! c = None → num r !! c = None →
  num (fill_row cs r) !! c = Some 0%Q.
Proof.
  intros Hc Ht Hn. unfold fill_row. simpl.
  induction cs as [|c' cs IH]; [by apply elem_of_nil in Hc|].
  simpl. destruct (decide (c' = c)) as [->|Hne].
  - unfold notna. rewrite Ht, Hn. by rewrite lookup_insert_eq.
  - apply elem_of_cons in Hc as [->|Hc]; [done|].
    destruct (notna c' r); [by apply IH|].
    rewrite lookup_insert_ne by done. by apply IH.
Qed.

Lemma fill_row_default (cs : list string) (r : Row) (c : string) :
  c ∈ cs → txt r !! c = None →
  num (fill_row cs r) !! c = Some (default 0%Q (num r !! c)).
Proof.
  intros Hc Ht. destruct (num r !! c) as [q|] eqn:E; simpl.
  - by apply fill_row_Some.
  - by apply fill_row_None.
Qed.

Lemma cast_row_lookup (cs : list string) (r : Row) (c : string) :
  num (cast_row cs r) !! c =
  (λ q, if bool_decide (c ∈ cs) then inject_Z (Qtrunc q) else q) <$> num r !! c.
Proof.
  unfold cast_row. simpl. rewrite map_lookup_imap.
  by destruct (num r !! c).
Qed.

Lemma finish_key (cols conv : list string) (positions : list Row) (l : Row) :
  txt (finish cols conv positions l) !! pdn = txt l !! pdn.
Proof. unfold finish. by rewrite joined_key. Qed.

Lemma joined_num_Some (positions : list Row) (l : Row) (c : string) (q : Q) :
  num l !! c = Some q → num (joined pdn positions l) !! c = Some q.
Proof.
  intros Hq. unfold joined. destruct (right_match pdn positions l); [|done].
  simpl. by apply lookup_union_Some_l.
Qed.

Lemma finish_num (cols conv : list string) (positions : list Row) (l : Row)
    (c : string) :
  c ∈ cols → c ∈ conv → txt l !! c = None →
  num (finish cols conv positions l) !! c =
  Some (inject_Z (Qtrunc (default 0%Q (num l !! c)))).
Proof.
  intros Hcols Hconv Htxt. unfold finish. apply joined_num_Some.
  rewrite cast_row_lookup, fill_row_default by done. simpl.
  by rewrite bool_decide_true.
Qed.

Lemma merge_eta (left right : DataFrame) (on : string) (h : how) :
  merge left right on h =
  mkDF (columns left ++ filter (λ c, c ≠ on) (columns right))
       (rows (merge left right on h)).
Proof. done. Qed.

Lemma load_and_aggregate_shape (pbp_df rosters_df final : DataFrame) :
  let T := kind_tables pbp_df def_stats_dict in
  load_and_aggregate_pbp_data pbp_df rosters_df = Ok final →
  match T with
  | [] => final = empty_frame
  | _ => ∃ positions,
      final = mkDF (pdn :: T.*1 ++ ["position"])
                   (finish (pdn :: T.*1) (converted T) positions
                      <$> rows (joined_tables T))
  end.
Proof.
  intros T H. unfold load_and_aggregate_pbp_data in H. inv_bind H.
  apply aggregated_stats_shape in Ha; [|apply def_stats_dict_ok].
  fold T in Ha. subst a.
  pose proof (joined_tables_inv pbp_df) as Hinv. simpl in Hinv. fold T in Hinv.
  unfold joined_tables in *.
  destruct (frames_of T) as [|first others] eqn:EF.
  - destruct T; [|done]. by injection H as <-.
  - destruct T as [|t T']; [done|].
    specialize (Hinv ltac:(done)). clear EF.
    set (M := foldl outer_on_player first others) in *.
    inv_bind H. injection H as <-.
    unfold select in Ha. inv_bind Ha. injection Ha as <-.
    eexists. rewrite merge_eta. f_equal.
    + simpl. rewrite (mi_columns _ _ Hinv). done.
    + rewrite merge_rows_unique by apply drop_duplicates_NoDup.
      rewrite app_nil_r. simpl.
      rewrite <- !list_fmap_compose. unfold finish, converted, has_col. simpl.
      rewrite (mi_columns _ _ Hinv). apply Forall_fmap_ext_1, Forall_forall.
      intros l _. simpl. do 3 f_equal.
      apply list_filter_iff. intros stat. by rewrite bool_decide_spec.
Qed.

(** ** The rows of the defensive table *)

Lemma filter_none {A} (P : A → Prop) `{∀ x, Decision (P x)} (l : list A) :
  Forall (λ x, ¬ P x) l → filter P l = [].
Proof.
  induction 1 as [|x l Hx _ IH]; [done|].
  by rewrite filter_cons, decide_False.
Qed.

Lemma filter_NoDup_fmap {A B} (f : A → B) (l : list A) (x : A)
    `{∀ y, Decision (f y = f x)} :
  NoDup (f <$> l) → x ∈ l → filter (λ y, f y = f x) l = [x].
Proof.
  induction l as [|y l IH]; intros Hnd Hx; [by apply elem_of_nil in Hx|].
  rewrite fmap_cons in Hnd. apply NoDup_cons in Hnd as [Hy Hnd].
  rewrite filter_cons. apply elem_of_cons in Hx as [->|Hx].
  - rewrite decide_True by done. f_equal.
    apply filter_none, Forall_forall. intros z Hz E.
    apply Hy. rewrite <- E. apply list_elem_of_fmap. eauto.
  - rewrite decide_False; [by apply IH|].
    intros E. apply Hy. rewrite E. apply list_elem_of_fmap. eauto.
Qed.

Lemma kind_tables_stat_NoDup (pbp_df : DataFrame) :
  NoDup (kind_tables pbp_df def_stats_dict).*1.
Proof.
  rewrite kind_tables_stats.
  eapply sublist_NoDup; [apply def_stats_names_NoDup|].
  apply present_kinds_sublist.
Qed.

Lemma kind_tables_stat_in_dict (pbp_df : DataFrame) (stat : string)
    (tbl : list (string * Q)) :
  (stat, tbl) ∈ kind_tables pbp_df def_stats_dict → stat ∈ def_stats_dict.*1.
Proof.
  intros Hin. eapply elem_of_sublist; [|apply (present_kinds_sublist pbp_df)].
  rewrite <- kind_tables_stats. apply list_elem_of_fmap. by exists (stat, tbl).
Qed.

Section final_rows.
Context (pbp_df rosters_df final : DataFrame).
Context (Hload : load_and_aggregate_pbp_data pbp_df rosters_df = Ok final).
Let T := kind_tables pbp_df def_stats_dict.

(** The counters of the row that a row of the joined tables becomes. *)
Lemma finish_counters (M : DataFrame) (positions : list Row) (l : Row)
    (stat name : string) (tbl : list (string * Q)) :
  merged_inv M T → l ∈ rows M → (stat, tbl) ∈ T →
  txt l !! pdn = Some name →
  let r := finish (pdn :: T.*1) (converted T) positions l in
  (∀ q, (name, q) ∈ tbl → num r !! stat = Some (inject_Z (Qtrunc q)))
  ∧ (name ∉ tbl.*1 → num r !! stat = Some 0%Q).
Proof.
  intros Hinv Hl Hst Hname r.
  pose proof (kind_tables_stat_in_dict _ _ _ Hst) as Hdict.
  assert (stat ∈ T.*1) as HstT by (apply list_elem_of_fmap; by exists (stat, tbl)).
  assert (num r !! stat = Some (inject_Z (Qtrunc (default 0%Q (num l !! stat)))))
    as Hr.
  { apply finish_num.
    - by right.
    - unfold converted. apply list_elem_of_filter. split; [by right|done].
    - destruct (txt l !! stat) as [s|] eqn:E; [|done].
      apply (mi_txt _ _ Hinv) in E; [|done]. subst stat.
      by destruct def_stats_names_not_pdn. }
  split.
  - intros q Hq. by rewrite Hr, (mi_val _ _ Hinv l stat tbl name q).
  - intros Hnot. rewrite Hr. destruct (num l !! stat) as [q|] eqn:E; [|done].
    destruct (mi_num _ _ Hinv l stat q Hl E) as (tbl' & name' & Hin & Hn & Hq).
    assert (tbl' = tbl) as ->
      by (eapply NoDup_fst_eq; [apply kind_tables_stat_NoDup|done..]).
    assert (name' = name) as -> by congruence.
    exfalso. apply Hnot, list_elem_of_fmap. by exists (name, q).
Qed.

Lemma final_row_spec (r : Row) :
  r ∈ rows final →
  ∃ name, txt r !! pdn = Some name
    ∧ (∃ stat tbl, (stat, tbl) ∈ T ∧ name ∈ tbl.*1)
    ∧ ∀ stat tbl, (stat, tbl) ∈ T →
        (∀ q, (name, q) ∈ tbl → num r !! stat = Some (inject_Z (Qtrunc q)))
        ∧ (name ∉ tbl.*1 → num r !! stat = Some 0%Q).
Proof.
  intros Hr. pose proof (load_and_aggregate_shape _ _ _ Hload) as Hshape.
  pose proof (joined_tables_inv pbp_df) as Hinv. simpl in Hshape, Hinv.
  fold T in Hshape, Hinv.
  destruct T as [|t T'] eqn:ET.
  { subst final. by apply elem_of_nil in Hr. }
  rewrite <- ET in *. specialize (Hinv ltac:(by rewrite ET)).
  destruct Hshape as [positions ->]. simpl in Hr.
  apply list_elem_of_fmap in Hr as (l & -> & Hl).
  assert (txt l !! pdn ∈ keys_on pdn (rows (joined_tables T))) as Hk
    by (apply list_elem_of_fmap; eauto).
  apply (mi_keys _ _ Hinv) in Hk as (name & st & tbl & Hname & Hst & Hin).
  exists name. rewrite finish_key. split_and!; [done|eauto|].
  intros stat tbl' Hst'. by eapply finish_counters.
Qed.

Lemma final_row_unique (name stat : string) (tbl : list (string * Q)) :
  (stat, tbl) ∈ T → name ∈ tbl.*1 →
  ∃ r, filter (λ r, txt r !! pdn = Some name) (rows final) = [r].
Proof.
  intros Hst Hin. pose proof (load_and_aggregate_shape _ _ _ Hload) as Hshape.
  pose proof (joined_tables_inv pbp_df) as Hinv. simpl in Hshape, Hinv.
  fold T in Hshape, Hinv.
  destruct T as [|t T'] eqn:ET; [by apply elem_of_nil in Hst|].
  rewrite <- ET in *. specialize (Hinv ltac:(by rewrite ET)).
  destruct Hshape as [positions ->]. simpl.
  assert (Some name ∈ keys_on pdn (rows (joined_tables T))) as Hk
    by (apply (mi_keys _ _ Hinv); eauto 6).
  apply list_elem_of_fmap in Hk as (l & Hname & Hl).
  eexists. rewrite filter_fmap_list.
  rewrite (list_filter_iff _ (λ y, txt y !! pdn = txt l !! pdn))
    by (intros l'; by rewrite finish_key, Hname).
  rewrite (filter_NoDup_fmap (λ r, txt r !! pdn) _ l);
    [done|apply (mi_NoDup _ _ Hinv)|done].
Qed.

Lemma final_columns : T ≠ [] → columns final = pdn :: T.*1 ++ ["position"].
Proof.
  intros HT. pose proof (load_and_aggregate_shape _ _ _ Hload) as Hshape.
  simpl in Hshape. fold T in Hshape.
  destruct T; [done|]. by destruct Hshape as [positions ->].
Qed.
End final_rows.

Lemma kind_tables_is_count_in (pbp_df : DataFrame) (stat name : string)
    (tbl : list (string * Q)) (q : Q) :
  (stat, tbl) ∈ kind_tables pbp_df def_stats_dict → (name, q) ∈ tbl →
  is_count q.
Proof.
  unfold kind_tables. intros (kind & [= -> ->] & _)%list_elem_of_fmap Hq.
  pose proof (kind_table_is_count pbp_df kind.1 kind.2.1 kind.2.2) as Hall.
  rewrite Forall_forall in Hall. apply (Hall _ Hq).
Qed.

Lemma elem_of_frames_of (T : tables) (f : DataFrame) :
  f ∈ frames_of T ↔ ∃ stat tbl, (stat, tbl) ∈ T ∧ f = counts_frame stat tbl.
Proof.
  unfold frames_of. rewrite list_elem_of_fmap. split.
  - intros ([stat tbl] & -> & Hin). eauto.
  - intros (stat & tbl & Hin & ->). by exists (stat, tbl).
Qed.

Lemma counts_frame_player (stat name : string) (tbl : list (string * Q)) :
  Some name ∈ keys_on pdn (rows (counts_frame stat tbl)) ↔ name ∈ tbl.*1.
Proof.
  rewrite counts_frame_keys, list_elem_of_fmap. split.
  - by intros (name' & [= ->] & Hin).
  - eauto.
Qed.

(** C1. Outer-join completeness: when the aggregator returns the defensive
    table, a player named in at least one of the per-kind (player, count)
    tables that the loop produced has exactly one row in it, and in that
    row the counter of every kind whose table does not name the player
    is 0. *)
Theorem outer_join_completeness (pbp_df rosters_df final : DataFrame)
    (frames : list DataFrame) (name : string) :
  aggregated_stats pbp_df def_stats_dict = Ok frames →
  load_and_aggregate_pbp_data pbp_df rosters_df = Ok final →
  (∃ f, f ∈ frames ∧ Some name ∈ keys_on pdn (rows f)) →
  ∃ r, filter (λ r, txt r !! pdn = Some name) (rows final) = [r]
       ∧ ∀ f stat, f ∈ frames → columns f = [pdn; stat] →
                   Some name ∉ keys_on pdn (rows f) →
                   num r !! stat = Some 0%Q.
Proof.
  intros Hframes Hload (f & Hf & Hname).
  apply aggregated_stats_shape in Hframes; [|apply def_stats_dict_ok].
  subst frames.
  apply elem_of_frames_of in Hf as (stat & tbl & Hst & ->).
  apply counts_frame_player in Hname.
  destruct (final_row_unique _ _ _ Hload name stat tbl Hst Hname) as [r Hr].
  exists r. split; [done|]. intros f stat' Hf Hcols Hnot.
  apply elem_of_frames_of in Hf as (st & tbl' & Hst' & ->).
  injection Hcols as <-. rewrite counts_frame_player in Hnot.
  assert (r ∈ rows final) as Hin.
  { assert (r ∈ [r]) as Hrr by left. rewrite <- Hr in Hrr.
    by apply list_elem_of_filter in Hrr as [_ ?]. }
  assert (txt r !! pdn = Some name) as Hkey.
  { assert (r ∈ [r]) as Hrr by left. rewrite <- Hr in Hrr.
    by apply list_elem_of_filter in Hrr as [? _]. }
  destruct (final_row_spec _ _ _ Hload r Hin) as (name' & Hkey' & _ & Hcells).
  assert (name' = name) as -> by congruence.
  by apply (Hcells st tbl').
Qed.

Lemma outer_join_completeness_witness :
  aggregated_stats pbp_example def_stats_dict = Ok frames_example
  ∧ load_and_aggregate_pbp_data pbp_example rosters_example = Ok defensive_example
  ∧ ∃ r, filter (λ r, txt r !! pdn = Some "A") (rows defensive_example) = [r]
         ∧ ∀ f stat, f ∈ frames_example → columns f = [pdn; stat] →
                     Some "A" ∉ keys_on pdn (rows f) →
                     num r !! stat = Some 0%Q.
Proof.
  split; [by vm_compute|]. split; [by vm_compute|].
  apply (outer_join_completeness pbp_example rosters_example defensive_example
           frames_example "A"); [by vm_compute|by vm_compute|].
  exists (counts_frame "passes_defended" [("A", 1%Q)]).
  split; [|apply counts_frame_player; left].
  apply (list_elem_of_lookup_2 _ 3). by vm_compute.
Defined.

Lemma present_kinds_all (pbp_df : DataFrame)
    (kinds : list (string * (string * string))) :
  Forall (λ kind, kind.2.2 ∈ columns pbp_df) kinds →
  present_kinds pbp_df kinds = kinds.
Proof.
  unfold present_kinds. induction 1 as [|kind kinds Hk _ IH]; [done|].
  by rewrite filter_cons, decide_True, IH.
Qed.

(** C6. Non-negativity and integrality: in every row of the table that the
    aggregator returns, each of the five counters that the table has is a
    whole number that is not negative; and the table has all five when the
    play table has the five player columns. *)
Theorem defensive_counters_nonneg_integers (pbp_df rosters_df final : DataFrame) :
  load_and_aggregate_pbp_data pbp_df rosters_df = Ok final →
  (∀ r stat, r ∈ rows final → stat ∈ def_stats_dict.*1 →
             stat ∈ columns final →
             ∃ n : Z, (0 ≤ n)%Z ∧ num r !! stat = Some (inject_Z n))
  ∧ (Forall (λ kind, kind.2.2 ∈ columns pbp_df) def_stats_dict →
     ∀ stat, stat ∈ def_stats_dict.*1 → stat ∈ columns final).
Proof.
  intros Hload. set (T := kind_tables pbp_df def_stats_dict).
  split.
  - intros r stat Hr Hdict Hcol.
    assert (T ≠ []) as HT.
    { intros HT. pose proof (load_and_aggregate_shape _ _ _ Hload) as Hshape.
      simpl in Hshape. fold T in Hshape. rewrite HT in Hshape. subst final.
      by apply elem_of_nil in Hr. }
    rewrite (final_columns _ _ _ Hload HT) in Hcol. fold T in Hcol.
    assert (stat ∈ T.*1) as Hst.
    { apply elem_of_cons in Hcol as [->|Hcol];
        [by destruct def_stats_names_not_pdn|].
      apply elem_of_app in Hcol as [?|Hcol]; [done|].
      apply list_elem_of_singleton in Hcol. subst stat.
      exfalso. revert Hdict. apply (bool_decide_unpack _). by vm_compute. }
    apply list_elem_of_fmap in Hst as ([st tbl] & -> & Hst). simpl.
    destruct (final_row_spec _ _ _ Hload r Hr) as (name & _ & _ & Hcells).
    destruct (Hcells st tbl Hst) as [Hsome Hnone].
    destruct (decide (name ∈ tbl.*1)) as [Hin|Hin].
    + apply list_elem_of_fmap in Hin as ([name' q] & -> & Hin). simpl in *.
      destruct (kind_tables_is_count_in pbp_df st name' tbl q Hst Hin)
        as (n & Hn & Hq).
      exists n. split; [done|].
      by rewrite (Hsome q Hin), (Qtrunc_inject_Z q n Hq).
    + exists 0%Z. split; [done|]. by apply Hnone.
  - intros Hall stat Hdict.
    assert (T.*1 = def_stats_dict.*1) as HT.
    { unfold T. by rewrite kind_tables_stats, present_kinds_all. }
    rewrite (final_columns _ _ _ Hload).
    + fold T. rewrite HT. right. apply elem_of_app. by left.
    + fold T. intros E. by rewrite E in HT.
Qed.

Lemma defensive_counters_nonneg_integers_witness :
  load_and_aggregate_pbp_data pbp_example rosters_example = Ok defensive_example
  ∧ (∀ r stat, r ∈ rows defensive_example → stat ∈ def_stats_dict.*1 →
               stat ∈ columns defensive_example →
               ∃ n : Z, (0 ≤ n)%Z ∧ num r !! stat = Some (inject_Z n))
  ∧ (Forall (λ kind, kind.2.2 ∈ columns pbp_example) def_stats_dict →
     ∀ stat, stat ∈ def_stats_dict.*1 → stat ∈ columns defensive_example).
Proof.
  split; [by vm_compute|].
  apply (defensive_counters_nonneg_integers pbp_example rosters_example).
  by vm_compute.
Defined.

(** ** Leaderboards: order, length and ranks *)

Lemma StronglySorted_filter {A} (R : relation A) (P : A → Prop)
    `{∀ x, Decision (P x)} (l : list A) :
  StronglySorted R l → StronglySorted R (filter P l).
Proof.
  induction 1 as [|x l _ IH Hx]; [constructor|].
  rewrite filter_cons. case_decide; [|done]. constructor; [done|].
  apply Forall_forall. intros y [_ Hy]%list_elem_of_filter.
  rewrite Forall_forall in Hx. by apply Hx.
Qed.

Lemma StronglySorted_take {A} (R : relation A) (n : nat) (l : list A) :
  StronglySorted R l → StronglySorted R (take n l).
Proof.
  intros Hl. revert n. induction Hl as [|x l _ IH Hx]; intros [|n]; simpl;
    try constructor; [by apply IH|].
  apply Forall_forall. intros y Hy. rewrite Forall_forall in Hx.
  apply Hx. by eapply (subseteq_take n l).
Qed.

Lemma StronglySorted_adjacent {A} (R : relation A) (l : list A) (i : nat) (a b : A) :
  StronglySorted R l → l !! i = Some a → l !! S i = Some b → R a b.
Proof.
  intros Hl. revert i. induction Hl as [|x l _ IH Hx]; intros i Ha Hb; [done|].
  destruct i as [|i]; simpl in *.
  - injection Ha as ->. rewrite Forall_forall in Hx.
    apply Hx. by eapply list_elem_of_lookup_2.
  - by eapply IH.
Qed.

Lemma sort_rows_StronglySorted `{SortValues} (c : string) (l : list Row) :
  StronglySorted (desc_na_last c) (sort_rows c l).
Proof. apply Sorted_StronglySorted; [apply _|apply sort_rows_sorted]. Qed.

Lemma select_row_num (cs : list string) (r : Row) (c : string) :
  c ∈ cs → num (select_row cs r) !! c = num r !! c.
Proof.
  intros Hc. unfold select_row. simpl. rewrite map_lookup_filter.
  destruct (num r !! c) as [q|]; [|done]. simpl.
  by rewrite option_guard_True.
Qed.

Lemma rank_labels (k : Z) (l : list Row) :
  (imap (λ i r, (Z.of_nat i + k, r)%Z) l).*1 = seqZ k (Z.of_nat (length l)).
Proof.
  revert k. induction l as [|r l IH]; intros k; [done|].
  rewrite imap_cons, fmap_cons, seqZ_cons by (simpl; lia). simpl.
  f_equal. replace (Z.pred (Z.of_nat (S (length l)))) with (Z.of_nat (length l)) by lia.
  rewrite <- IH. f_equal. apply imap_ext. intros i x _. simpl.
  f_equal. lia.
Qed.

Lemma rank_from_one_ordered (stat : string) (df : DataFrame) :
  StronglySorted (desc_na_last stat) (rows df) →
  Forall (λ r, is_Some (num r !! stat)) (rows df) →
  lb_ordered stat (rank_from_one df).
Proof.
  intros Hsorted Hsome i [ka a] [kb b]. unfold rank_from_one. simpl.
  rewrite !list_lookup_imap. intros Ha Hb.
  destruct (rows df !! i) as [a'|] eqn:Ea; [|done].
  destruct (rows df !! S i) as [b'|] eqn:Eb; [|done].
  simpl in *. simplify_eq.
  pose proof (StronglySorted_adjacent _ _ _ _ _ Hsorted Ea Eb) as Hab.
  rewrite Forall_forall in Hsome.
  destruct (Hsome a) as [x Hx]; [by eapply list_elem_of_lookup_2|].
  destruct (Hsome b) as [y Hy]; [by eapply list_elem_of_lookup_2|].
  unfold desc_na_last in Hab. rewrite Hx, Hy in Hab. eauto.
Qed.

Lemma rank_from_one_length (df : DataFrame) :
  length (lb_rows (rank_from_one df)) = length (rows df).
Proof. unfold rank_from_one. simpl. apply length_imap. Qed.

Lemma rank_from_one_labels (df : DataFrame) :
  (lb_rows (rank_from_one df)).*1 = seqZ 1 (Z.of_nat (length (rows df))).
Proof. apply rank_labels. Qed.

Lemma defense_leaderboard_Some `{SortValues} (defensive_df : DataFrame)
    (stat_column : string) (lb : Leaderboard) :
  defense_leaderboard defensive_df stat_column = Ok (Some lb) →
  stat_column ∈ columns defensive_df
  ∧ lb = rank_from_one
           (mkDF [pdn; "position"; stat_column]
              (select_row [pdn; "position"; stat_column]
                 <$> take 20 (filter (λ r, num_gtb stat_column 0%Q r)
                                (sort_rows stat_column (rows defensive_df))))).
Proof.
  unfold defense_leaderboard, has_col. case_bool_decide as Hcol; [|done].
  intros H'. inv_bind H'. unfold select in Ha. inv_bind Ha.
  by simplify_eq.
Qed.

Lemma stat_leaderboard_Some `{SortValues} (df_for_leaders : DataFrame)
    (groupby_cols display_cols : list string) (stat_column : string)
    (lb : Leaderboard) :
  stat_leaderboard df_for_leaders groupby_cols display_cols stat_column
    = Ok (Some lb) →
  stat_column ∈ columns df_for_leaders
  ∧ df_empty df_for_leaders = false
  ∧ lb = rank_from_one
           (head_ 20 (sort_values stat_column
                        (groupby_agg groupby_cols stat_column
                           (col_sum stat_column) df_for_leaders))).
Proof.
  unfold stat_leaderboard, has_col. case_bool_decide as Hcol; [|done].
  destruct (df_empty df_for_leaders); [done|]. simpl.
  intros H'. inv_bind H'. unfold groupby_sum in Ha. inv_bind Ha.
  by simplify_eq.
Qed.

(** C2. Leaderboard ordering: in a leaderboard of any of the three paths
    the value at a rank is at least the value at the next rank, there are
    at most 20 rows, and the rank labels are 1, 2, ... up to the number of
    rows. *)
Theorem leaderboard_ordering `{SortValues} (input : LeaderboardInput)
    (stat_column : string) (lb : Leaderboard) :
  build_leaderboard input stat_column = Ok (Some lb) →
  lb_ordered stat_column lb
  ∧ (length (lb_rows lb) ≤ 20)%nat
  ∧ (lb_rows lb).*1 = seqZ 1 (Z.of_nat (length (lb_rows lb))).
Proof.
  destruct input as [df|df gcols dcols]; simpl; intros Hlb.
  - apply defense_leaderboard_Some in Hlb as [Hcol ->].
    assert (stat_column ∈ [pdn; "position"; stat_column]) as Hsel
      by (do 2 right; left).
    rewrite rank_from_one_labels, rank_from_one_length. simpl.
    split_and!; [|by rewrite length_fmap, length_take; lia|done].
    apply rank_from_one_ordered; simpl.
    + apply (StronglySorted_fmap _ (desc_na_last stat_column)).
      * intros x y. unfold desc_na_last.
        by rewrite !select_row_num by done.
      * apply StronglySorted_take, StronglySorted_filter,
          sort_rows_StronglySorted.
    + apply Forall_fmap, Forall_forall. intros r Hr.
      change (is_Some (num (select_row [pdn; "position"; stat_column] r)
                         !! stat_column)).
      rewrite select_row_num by done.
      apply subseteq_take, list_elem_of_filter in Hr as [Hr _].
      unfold num_gtb in Hr. by destruct (num r !! stat_column).
  - apply stat_leaderboard_Some in Hlb as (Hcol & _ & ->).
    rewrite rank_from_one_labels, rank_from_one_length. simpl.
    split_and!; [|by rewrite length_take; lia|done].
    apply rank_from_one_ordered; simpl.
    + apply StronglySorted_take, sort_rows_StronglySorted.
    + apply Forall_forall. intros r Hr. apply subseteq_take in Hr.
      rewrite sort_rows_perm in Hr.
      apply list_elem_of_fmap in Hr as (k & -> & _). simpl.
      by rewrite lookup_singleton_eq.
Qed.

Lemma leaderboard_ordering_witness :
  @build_leaderboard merge_sort_values (DefensiveTable defensive_example) "sacks"
    = Ok (Some sacks_leaders)
  ∧ lb_ordered "sacks" sacks_leaders
  ∧ (length (lb_rows sacks_leaders) ≤ 20)%nat
  ∧ (lb_rows sacks_leaders).*1 = seqZ 1 (Z.of_nat (length (lb_rows sacks_leaders))).
Proof.
  split; [by vm_compute|].
  apply (@leaderboard_ordering merge_sort_values
           (DefensiveTable defensive_example) "sacks" sacks_leaders).
  by vm_compute.
Defined.

(** ** Ties *)

Lemma tied_rows_ordered (c : string) (v : Q) (x y : Row) :
  num_eqb c v x → num_eqb c v y → desc_na_last c x y.
Proof.
  unfold num_eqb, desc_na_last.
  destruct (num x !! c) as [qx|], (num y !! c) as [qy|]; try done.
  intros Hx%Is_true_true%Qeq_bool_iff Hy%Is_true_true%Qeq_bool_iff.
  rewrite Hx, Hy. apply Qle_refl.
Qed.

Lemma insert_row_ties (c : string) (v : Q) (x : Row) (s : list Row) :
  filter (λ r, num_eqb c v r) (insert_row c x s)
  = filter (λ r, num_eqb c v r) (x :: s).
Proof.
  induction s as [|y s IH]; [done|]. simpl. case_decide as Hxy; [done|].
  rewrite (filter_cons _ y), IH, !filter_cons.
  destruct (decide (num_eqb c v x)) as [Hx|Hx],
           (decide (num_eqb c v y)) as [Hy|Hy]; try done.
  exfalso. by eapply Hxy, tied_rows_ordered.
Qed.

Lemma insertion_sort_stable : stable_sort insertion_sort_values.
Proof.
  intros c l v. simpl. induction l as [|x l IH]; [done|]. simpl.
  by rewrite insert_row_ties, !filter_cons, IH.
Qed.

Lemma rank_from_one_rows (df : DataFrame) :
  (lb_rows (rank_from_one df)).*2 = rows df.
Proof.
  unfold rank_from_one. simpl. rewrite fmap_imap.
  rewrite (imap_ext _ (const id)) by done.
  by rewrite imap_const, list_fmap_id.
Qed.

Lemma filter_comm {A} (P Q : A → Prop) `{∀ x, Decision (P x)}
    `{∀ x, Decision (Q x)} (l : list A) :
  filter P (filter Q l) = filter Q (filter P l).
Proof.
  rewrite !list_filter_filter. apply list_filter_iff. intros x. tauto.
Qed.

Lemma filter_take_prefix {A} (P : A → Prop) `{∀ x, Decision (P x)}
    (n : nat) (l : list A) :
  filter P (take n l) `prefix_of` filter P l.
Proof.
  exists (filter P (drop n l)). by rewrite <- filter_app, take_drop.
Qed.

Lemma fmap_prefix_of {A B} (f : A → B) (l1 l2 : list A) :
  l1 `prefix_of` l2 → f <$> l1 `prefix_of` f <$> l2.
Proof. intros [k ->]. exists (f <$> k). apply fmap_app. Qed.

Lemma positive_filter_prefix (c : string) (v : Q) (l : list Row) :
  filter (λ r, num_gtb c 0%Q r) (filter (λ r, num_eqb c v r) l)
  `prefix_of` filter (λ r, num_eqb c v r) l.
Proof.
  destruct (Qlt_bool 0%Q v) eqn:Ev.
  - replace (filter (λ r, num_gtb c 0%Q r) (filter (λ r, num_eqb c v r) l))
      with (filter (λ r, num_eqb c v r) l); [done|].
    rewrite list_filter_filter. apply list_filter_iff. intros r.
    split; [|tauto]. intros Hr. split; [|done].
    unfold num_eqb, num_gtb in *. destruct (num r !! c) as [q|]; [|done].
    apply Is_true_true, Qeq_bool_iff in Hr. apply Is_true_true.
    unfold Qlt_bool in *. apply negb_true_iff in Ev. apply negb_true_iff.
    destruct (Qle_bool q 0%Q) eqn:E; [|done].
    apply Qle_bool_iff in E. rewrite Hr in E. apply Qle_bool_iff in E.
    congruence.
  - replace (filter (λ r, num_gtb c 0%Q r) (filter (λ r, num_eqb c v r) l))
      with (@nil Row); [apply prefix_nil|].
    symmetry. apply filter_none, Forall_forall.
    intros r [Hr _]%list_elem_of_filter Hpos.
    unfold num_eqb, num_gtb in *. destruct (num r !! c) as [q|]; [|done].
    apply Is_true_true, Qeq_bool_iff in Hr. apply Is_true_true in Hpos.
    unfold Qlt_bool in *. apply negb_false_iff in Ev. apply negb_true_iff in Hpos.
    apply Qle_bool_iff in Ev. rewrite <- Hr in Ev. apply Qle_bool_iff in Ev.
    congruence.
Qed.

Lemma num_eqb_select (cs : list string) (c : string) (v : Q) (r : Row) :
  c ∈ cs → num_eqb c v (select_row cs r) = num_eqb c v r.
Proof. intros Hc. unfold num_eqb. by rewrite select_row_num. Qed.




(** ** The page: what depends on which widget *)

(** C10. The Next Gen Stats leaderboard does not depend on the week range:
    for the same season data and the same other widgets, any two settings
    of the week slider give the same leaderboard (or the same failure). *)
Theorem ngs_leaderboard_ignores_week_range `{SortValues}
    (weekly_df_raw : DataFrame) (ngs_data_raw : NgsType → DataFrame)
    (pbp_df rosters_df : DataFrame) (year : Z) (season : SeasonType)
    (choice : nat) (ngs : NgsType) (weeks1 weeks2 : option (Z * Z)) :
  leaderboard_shown
    <$> top_performers weekly_df_raw ngs_data_raw pbp_df rosters_df
          (mkWidgets year season NextGenStats choice ngs weeks1)
  = leaderboard_shown
    <$> top_performers weekly_df_raw ngs_data_raw pbp_df rosters_df
          (mkWidgets year season NextGenStats choice ngs weeks2).
Proof.
  unfold top_performers. simpl.
  destruct (load_and_aggregate_pbp_data pbp_df rosters_df); [simpl|done].
  destruct (season_filter season weekly_df_raw) as [weekly_df|]; [simpl|done].
  destruct (df_empty weekly_df); [done|].
  destruct (getcol weekly_df pdn); [simpl|done].
  destruct (week_bounds weekly_df) as [[min_week max_week]|]; [simpl|done].
  destruct (getcol (ngs_data_raw ngs) "season"); [simpl|done].
  destruct (dict_get _ _) as [stat_column|]; [simpl|done].
  destruct (stat_leaderboard _ _ _ _) as [lb|]; [simpl|done].
  by destruct lb.
Qed.


Lemma season_filter_columns (season : SeasonType) (weekly_df_raw weekly_df : DataFrame) :
  season_filter season weekly_df_raw = Ok weekly_df →
  columns weekly_df = columns weekly_df_raw.
Proof.
  destruct season; simpl; intros H; inv_bind H; by simplify_eq.
Qed.



(** ** What the leaderboards aggregate *)

(** Every row of a leaderboard of the offensive and tracking paths is a
    group of the table with the sum of the statistic over the group,
    whatever [aggregation_choice] says of the column. *)
Lemma stat_leaderboard_sums `{SortValues} (df_for_leaders : DataFrame)
    (groupby_cols display_cols : list string) (stat_column : string)
    (lb : Leaderboard) (x : Z * Row) :
  stat_leaderboard df_for_leaders groupby_cols display_cols stat_column
    = Ok (Some lb) →
  x ∈ lb_rows lb →
  ∃ k, k ∈ group_keys groupby_cols (rows df_for_leaders)
       ∧ txt x.2 = key_cells groupby_cols k
       ∧ num x.2 !! stat_column
         = Some (col_sum stat_column
                   (filter (λ r, row_key groupby_cols r = Some k)
                           (rows df_for_leaders))).
Proof.
  intros Hlb Hx. apply stat_leaderboard_Some in Hlb as (_ & _ & ->).
  assert (x.2 ∈ (lb_rows (rank_from_one
            (head_ 20 (sort_values stat_column
               (groupby_agg groupby_cols stat_column (col_sum stat_column)
                  df_for_leaders))))).*2) as Hx2
    by (apply list_elem_of_fmap; eauto).
  rewrite rank_from_one_rows in Hx2. simpl in Hx2.
  apply subseteq_take in Hx2. rewrite sort_rows_perm in Hx2.
  apply list_elem_of_fmap in Hx2 as (k & -> & Hk).
  exists k. simpl. by rewrite lookup_singleton_eq.
Qed.

(** On the offensive path the table is the weekly table cut to the week
    range: the value of a group is the sum over the rows of the group whose
    week lies in the range, both ends included. *)
Lemma offense_leaderboard_week_range `{SortValues} (weekly_df : DataFrame)
    (lo hi : Z) (groupby_cols display_cols : list string)
    (stat_column : string) (lb : Leaderboard) (x : Z * Row) :
  stat_leaderboard (where_ (num_between "week" lo hi) weekly_df)
    groupby_cols display_cols stat_column = Ok (Some lb) →
  x ∈ lb_rows lb →
  ∃ k, txt x.2 = key_cells groupby_cols k
       ∧ num x.2 !! stat_column
         = Some (col_sum stat_column
                   (filter (λ r, row_key groupby_cols r = Some k
                                 ∧ num_between "week" lo hi r)
                           (rows weekly_df))).
Proof.
  intros Hlb Hx.
  destruct (stat_leaderboard_sums _ _ _ _ _ _ Hlb Hx) as (k & _ & Htxt & Hnum).
  exists k. split; [done|]. rewrite Hnum. simpl.
  by rewrite list_filter_filter.
Qed.

(** C3 fails on the Next Gen Stats path.  With the slider set to week 1
    only, the chart is titled with weeks 1 to 1 and player A stands at 6,
    the sum over weeks 1 and 2, while the rows of week 1 sum to 2. *)
Theorem ngs_leaderboard_sums_outside_week_range :
  chart_title <$> shown_chart (ngs_page (Some (1, 1)%Z))
    = Some (Some "Avg Time to Throw (sec)", Some (1, 1)%Z)
  ∧ leaders "avg_time_to_throw" ∘ chart_df <$> shown_chart (ngs_page (Some (1, 1)%Z))
    = Some [(1%Z, Some "A", Some 6%Q); (2%Z, Some "B", Some 3%Q)]
  ∧ col_sum "avg_time_to_throw"
      (filter (λ r, txt r !! pdn = Some "A" ∧ num_between "week" 1 1 r)
              (rows ngs_passing_example))
    = 2%Q.
Proof. split_and!; by vm_compute. Qed.

(** C5 fails on the code.  For "avg_time_to_throw" the variable
    [aggregation] is "mean", and the leaderboard still holds the sum:
    player A, with 2 and 4 in two games, stands at 6 and not at the
    mean 3. *)
Theorem avg_metric_is_summed_not_averaged :
  aggregation_choice "avg_time_to_throw" = "mean"
  ∧ leaders "avg_time_to_throw" ∘ chart_df <$> shown_chart (ngs_page None)
    = Some [(1%Z, Some "A", Some 6%Q); (2%Z, Some "B", Some 3%Q)]
  ∧ (col_mean "avg_time_to_throw"
       (filter (λ r, txt r !! pdn = Some "A") (rows ngs_passing_example))
     == 3)%Q.
Proof. split_and!; by vm_compute. Qed.

(** ** The player summary *)

Lemma Qlt_bool_iff (x y : Q) : Qlt_bool x y ↔ (x < y)%Q.
Proof.
  unfold Qlt_bool. destruct (Qle_bool y x) eqn:E; simpl.
  - apply Qle_bool_iff in E. split; [done|].
    intros Hlt. by apply Qle_not_lt in E.
  - split; [intros _|done]. apply Qnot_le_lt. intros Hle.
    apply Qle_bool_iff in Hle. congruence.
Qed.

Lemma player_search_unfold (weekly_df : DataFrame) (player_name : string)
    (choice : option (Z * Z)) :
  player_search weekly_df player_name choice =
  (_ ← getcol weekly_df pdn;
   match positive_cols weekly_df player_name with
   | [] => Ok None
   | _ =>
       '(lo, hi) ← week_bounds (where_ (txt_eqb pdn player_name) weekly_df);
       per_game ← select ("week" :: positive_cols weekly_df player_name)
                         (where_ (txt_eqb pdn player_name) weekly_df);
       Ok (Some (mkSummary (positive_cols weekly_df player_name)
                   ((λ col, (col, Qtrunc (col_sum col
                                            (player_rows weekly_df player_name))))
                      <$> positive_cols weekly_df player_name)
                   (range_table (positive_cols weekly_df player_name)
                      (player_rows weekly_df player_name) (slider lo hi choice))
                   per_game))
   end).
Proof. done. Qed.

Lemma player_search_Some (weekly_df : DataFrame) (player_name : string)
    (choice : option (Z * Z)) (s : PlayerSummary) :
  player_search weekly_df player_name choice = Ok (Some s) ↔
  ∃ lo hi per_game,
    getcol weekly_df pdn = Ok ()
    ∧ positive_cols weekly_df player_name ≠ []
    ∧ week_bounds (where_ (txt_eqb pdn player_name) weekly_df) = Ok (lo, hi)
    ∧ select ("week" :: positive_cols weekly_df player_name)
             (where_ (txt_eqb pdn player_name) weekly_df) = Ok per_game
    ∧ s = mkSummary (positive_cols weekly_df player_name)
            ((λ col, (col, Qtrunc (col_sum col (player_rows weekly_df player_name))))
               <$> positive_cols weekly_df player_name)
            (range_table (positive_cols weekly_df player_name)
               (player_rows weekly_df player_name) (slider lo hi choice))
            per_game.
Proof.
  rewrite player_search_unfold. split.
  - intros H. inv_bind H. destruct a.
    destruct (positive_cols weekly_df player_name) as [|col cols] eqn:E; [done|].
    rewrite <- E in *. inv_bind H. destruct a as [lo hi]. inv_bind H.
    injection H as <-. exists lo, hi, a. split_and!; try done.
    by rewrite E.
  - intros (lo & hi & pg & -> & Hne & -> & -> & ->).
    by destruct (positive_cols weekly_df player_name).
Qed.

Lemma positive_cols_spec (weekly_df : DataFrame) (player_name : string) :
  positive_cols weekly_df player_name
  = filter (λ col, col ∈ columns weekly_df
                   ∧ (0 < col_sum col (player_rows weekly_df player_name))%Q)
           (OFFENSE_STATS.*2).
Proof.
  unfold positive_cols, has_col. apply list_filter_iff. intros col.
  by rewrite bool_decide_spec, Qlt_bool_iff.
Qed.

Lemma range_table_cols (cols : list string) (rs : list Row) (range : Z * Z) :
  (range_table cols rs range).*1
  = filter (λ col, (0 < col_sum col
                          (filter (λ r, num_between "week" range.1 range.2 r) rs))%Q)
           cols.
Proof.
  unfold range_table. rewrite filter_fmap_list, <- !list_fmap_compose.
  rewrite (list_fmap_ext _ id) by done. rewrite list_fmap_id.
  apply list_filter_iff. intros col. simpl. apply Qlt_bool_iff.
Qed.



(** ** Missing columns and empty tables *)

Lemma stat_leaderboard_no_data `{SortValues} (df_for_leaders : DataFrame)
    (groupby_cols display_cols : list string) (stat_column : string) :
  stat_column ∉ columns df_for_leaders ∨ df_empty df_for_leaders →
  stat_leaderboard df_for_leaders groupby_cols display_cols stat_column = Ok None.
Proof.
  unfold stat_leaderboard, has_col. intros [Hcol|Hempty].
  - by rewrite bool_decide_false.
  - apply Is_true_true in Hempty. rewrite Hempty. by rewrite andb_false_r.
Qed.

Lemma defense_leaderboard_missing `{SortValues} (defensive_df : DataFrame)
    (stat_column : string) :
  stat_column ∉ columns defensive_df →
  defense_leaderboard defensive_df stat_column = Ok None.
Proof.
  intros Hcol. unfold defense_leaderboard, has_col. by rewrite bool_decide_false.
Qed.

Lemma defense_leaderboard_no_rows `{SortValues} (pbp_df rosters_df : DataFrame)
    (defensive_df : DataFrame) (stat_column : string) :
  load_and_aggregate_pbp_data pbp_df rosters_df = Ok defensive_df →
  rows defensive_df = [] →
  ∃ lb, defense_leaderboard defensive_df stat_column = Ok lb ∧ no_leaders lb.
Proof.
  intros Hload Hrows. unfold defense_leaderboard, has_col.
  case_bool_decide as Hcol; [|by exists None].
  set (T := kind_tables pbp_df def_stats_dict).
  assert (T ≠ []) as HT.
  { intros HT. pose proof (load_and_aggregate_shape _ _ _ Hload) as Hshape.
    simpl in Hshape. fold T in Hshape. rewrite HT in Hshape.
    subst defensive_df. by apply elem_of_nil in Hcol. }
  pose proof (final_columns _ _ _ Hload HT) as Hcols. fold T in Hcols.
  unfold select.
  rewrite (proj2 (getcols_Ok _ _)).
  - simpl. eexists. split; [done|]. simpl. rewrite Hrows.
    pose proof (sort_rows_perm stat_column []) as Hperm.
    apply Permutation_nil_r in Hperm. by rewrite Hperm.
  - simpl. rewrite !Forall_cons. split_and!; [| |done|done].
    + rewrite Hcols. left.
    + rewrite Hcols. right. apply elem_of_app. right. left.
Qed.

Lemma aggregated_stats_none (pbp_df : DataFrame)
    (kinds : list (string * (string * string))) :
  Forall (λ kind, kind.2.2 ∉ columns pbp_df) kinds →
  aggregated_stats pbp_df kinds = Ok [].
Proof.
  induction 1 as [|[stat [flag pc]] kinds Hk _ IH]; [done|].
  simpl in *. unfold has_col. by rewrite bool_decide_false.
Qed.

Lemma load_and_aggregate_no_kind (pbp_df rosters_df : DataFrame) :
  Forall (λ kind, kind.2.2 ∉ columns pbp_df) def_stats_dict →
  load_and_aggregate_pbp_data pbp_df rosters_df = Ok empty_frame.
Proof.
  intros Hnone. unfold load_and_aggregate_pbp_data.
  by rewrite aggregated_stats_none.
Qed.

Lemma load_and_aggregate_no_rows (pbp_df rosters_df : DataFrame)
    (frames : list DataFrame) :
  aggregated_stats pbp_df def_stats_dict = Ok frames →
  Forall (λ f, rows f = []) frames →
  Forall (λ c, c ∈ columns rosters_df) ["player_name"; "position"] →
  ∃ final, load_and_aggregate_pbp_data pbp_df rosters_df = Ok final
           ∧ rows final = [].
Proof.
  intros Hframes Hempty Hros.
  destruct (load_and_aggregate_pbp_data pbp_df rosters_df) as [final|e] eqn:E.
  - exists final. split; [done|].
    pose proof (load_and_aggregate_shape _ _ _ E) as Hshape.
    pose proof (joined_tables_inv pbp_df) as Hinv. simpl in Hshape, Hinv.
    apply aggregated_stats_shape in Hframes; [|apply def_stats_dict_ok].
    subst frames.
    destruct (kind_tables pbp_df def_stats_dict) as [|t T] eqn:ET;
      [by subst final|].
    rewrite <- ET in *. specialize (Hinv ltac:(by rewrite ET)).
    destruct Hshape as [positions ->]. simpl.
    destruct (rows (joined_tables _)) as [|l ls] eqn:El; [done|].
    exfalso.
    assert (txt l !! pdn ∈ keys_on pdn (rows (joined_tables
              (kind_tables pbp_df def_stats_dict)))) as Hk
      by (rewrite El; left).
    apply (mi_keys _ _ Hinv) in Hk as (name & st & tbl & _ & Hst & Hname).
    rewrite Forall_forall in Hempty.
    specialize (Hempty (counts_frame st tbl)).
    rewrite elem_of_frames_of in Hempty.
    specialize (Hempty ltac:(eauto)). simpl in Hempty.
    apply fmap_nil_inv in Hempty. subst tbl. by apply elem_of_nil in Hname.
  - exfalso. unfold load_and_aggregate_pbp_data in E. rewrite Hframes in E.
    simpl in E. destruct frames as [|first others]; [done|].
    unfold select in E. rewrite (proj2 (getcols_Ok _ _)) in E by done.
    done.
Qed.

Lemma player_search_no_data (weekly_df : DataFrame) (player_name : string)
    (choice : option (Z * Z)) :
  pdn ∈ columns weekly_df →
  rows weekly_df = [] ∨ Forall (λ col, col ∉ columns weekly_df) (OFFENSE_STATS.*2) →
  player_search weekly_df player_name choice = Ok None.
Proof.
  intros Hpdn Hno. rewrite player_search_unfold.
  rewrite (proj2 (getcol_Ok _ _)) by done.
  replace (positive_cols weekly_df player_name) with (@nil string); [done|].
  symmetry. unfold positive_cols. apply filter_none.
  destruct Hno as [Hrows|Hcols].
  - apply Forall_forall. intros col _ [_ Hpos].
    unfold player_rows in Hpos. by rewrite Hrows in Hpos.
  - eapply Forall_impl; [exact Hcols|]. intros col Hcol [Hin _].
    unfold has_col in Hin. by apply bool_decide_unpack in Hin.
Qed.

(** With the flag columns of the kinds that sum a flag and the two roster
    columns in place, the aggregator returns a table. *)
Lemma load_and_aggregate_Ok (pbp_df rosters_df : DataFrame) :
  Forall (λ kind, kind.2.2 ∈ columns pbp_df →
                  kind.1 ∈ count_kinds ∨ kind.2.1 ∈ columns pbp_df)
         def_stats_dict →
  Forall (λ c, c ∈ columns rosters_df) ["player_name"; "position"] →
  ∃ final, load_and_aggregate_pbp_data pbp_df rosters_df = Ok final.
Proof.
  intros Hflags Hros. unfold load_and_aggregate_pbp_data.
  destruct (aggregated_stats_Ok _ _ Hflags) as [frames ->]. simpl.
  destruct frames as [|first others]; [eauto|].
  unfold select. rewrite (proj2 (getcols_Ok _ _)) by done. simpl. eauto.
Qed.



(** * Further properties *)

(** ** The defensive table, play by play *)

Lemma qualifying_plays_of (pbp_df : DataFrame) (stat flag pc name : string) :
  filter (λ r, txt r !! pc = Some name) (qualifying pbp_df stat flag pc)
  = plays_of pbp_df stat flag pc name.
Proof.
  unfold qualifying, plays_of, counts_for. case_bool_decide as Hkind.
  - rewrite list_filter_filter. apply list_filter_iff. intros r. split.
    + intros [Hname _]. auto.
    + intros [Hname _]. split; [done|]. unfold notna. by rewrite Hname.
  - rewrite !list_filter_filter. apply list_filter_iff. intros r. split.
    + intros [[Hname Hflag] _]. auto.
    + intros [Hname [?|Hflag]]; [done|]. split_and!; [done..|].
      unfold notna. by rewrite Hname.
Qed.

Lemma kind_table_players (pbp_df : DataFrame) (stat flag pc name : string) :
  name ∈ (kind_table pbp_df stat flag pc).*1 ↔ plays_of pbp_df stat flag pc name ≠ [].
Proof.
  rewrite <- qualifying_plays_of. unfold kind_table. split.
  - intros ([name' q] & -> & Hin)%list_elem_of_fmap. simpl.
    apply elem_of_player_counts in Hin as [(r & Hr & Hname) _].
    intros E. assert (r ∈ filter (λ r, txt r !! pc = Some name')
                            (qualifying pbp_df stat flag pc)) as Hin
      by (by apply list_elem_of_filter).
    rewrite E in Hin. by apply elem_of_nil in Hin.
  - intros Hne.
    destruct (filter _ (qualifying pbp_df stat flag pc)) as [|r rs] eqn:E;
      [done|].
    assert (r ∈ filter (λ r, txt r !! pc = Some name)
                       (qualifying pbp_df stat flag pc)) as Hin
      by (rewrite E; left).
    apply list_elem_of_filter in Hin as [Hname Hr].
    apply list_elem_of_fmap.
    exists (name, kind_agg stat flag
                    (filter (λ r, txt r !! pc = Some name)
                            (qualifying pbp_df stat flag pc))).
    split; [done|]. apply elem_of_player_counts. eauto.
Qed.

Lemma elem_of_kind_tables (pbp_df : DataFrame) (stat flag pc : string) :
  (stat, (flag, pc)) ∈ def_stats_dict → pc ∈ columns pbp_df →
  (stat, kind_table pbp_df stat flag pc) ∈ kind_tables pbp_df def_stats_dict.
Proof.
  intros Hkind Hpc. unfold kind_tables, present_kinds.
  apply list_elem_of_fmap. exists (stat, (flag, pc)). split; [done|].
  by apply list_elem_of_filter.
Qed.

Lemma kind_table_value (pbp_df : DataFrame) (stat flag pc name : string) :
  (∀ q, (name, q) ∈ kind_table pbp_df stat flag pc →
        Qtrunc q = Z.of_nat (length (plays_of pbp_df stat flag pc name)))
  ∧ (name ∉ (kind_table pbp_df stat flag pc).*1 →
     plays_of pbp_df stat flag pc name = []).
Proof.
  split.
  - intros q Hin. apply kind_table_count in Hin as [Hq _]. simpl in Hq.
    rewrite qualifying_plays_of in Hq. by apply Qtrunc_inject_Z.
  - intros Hin. rewrite kind_table_players in Hin.
    destruct (plays_of pbp_df stat flag pc name); [done|].
    exfalso. by apply Hin.
Qed.

(** X1. Every counter of the defensive table is the number of plays that
    count for the player under the kind of the counter. *)
Theorem defensive_counter_counts_plays (pbp_df rosters_df final : DataFrame)
    (r : Row) (name stat flag pc : string) :
  load_and_aggregate_pbp_data pbp_df rosters_df = Ok final →
  r ∈ rows final → txt r !! pdn = Some name →
  (stat, (flag, pc)) ∈ def_stats_dict → pc ∈ columns pbp_df →
  num r !! stat
  = Some (inject_Z (Z.of_nat (length (plays_of pbp_df stat flag pc name)))).
Proof.
  intros Hload Hr Hname Hkind Hpc.
  destruct (final_row_spec _ _ _ Hload r Hr) as (name' & Hname' & _ & Hcells).
  assert (name' = name) as -> by congruence.
  destruct (Hcells stat _ (elem_of_kind_tables _ _ _ _ Hkind Hpc))
    as [Hsome Hnone].
  destruct (kind_table_value pbp_df stat flag pc name) as [Hvalue Hzero].
  destruct (decide (name ∈ (kind_table pbp_df stat flag pc).*1)) as [Hin|Hin].
  - apply list_elem_of_fmap in Hin as ([name' q] & -> & Hin). simpl in *.
    by rewrite (Hsome q Hin), (Hvalue q Hin).
  - by rewrite (Hnone Hin), (Hzero Hin).
Qed.

Lemma defensive_counter_counts_plays_witness :
  load_and_aggregate_pbp_data pbp_example rosters_example = Ok defensive_example
  ∧ ∀ r, r ∈ rows defensive_example → txt r !! pdn = Some "B" →
         num r !! "sacks" = Some 3%Q.
Proof.
  split; [by vm_compute|]. intros r Hr Hname.
  rewrite (defensive_counter_counts_plays pbp_example rosters_example
             defensive_example r "B" "sacks" "sack" "sack_player_name");
    [done|by vm_compute|done|done|left|].
  apply (bool_decide_unpack _). by vm_compute.
Defined.

Lemma final_keys (pbp_df rosters_df final : DataFrame) :
  load_and_aggregate_pbp_data pbp_df rosters_df = Ok final →
  keys_on pdn (rows final)
  = keys_on pdn (rows (joined_tables (kind_tables pbp_df def_stats_dict))).
Proof.
  intros Hload. pose proof (load_and_aggregate_shape _ _ _ Hload) as Hshape.
  simpl in Hshape.
  destruct (kind_tables pbp_df def_stats_dict) as [|t T] eqn:ET;
    [by subst final|].
  destruct Hshape as [positions ->]. simpl. unfold keys_on.
  rewrite <- list_fmap_compose. apply Forall_fmap_ext_1, Forall_forall.
  intros l _. apply finish_key.
Qed.

Lemma elem_of_kind_tables_inv (pbp_df : DataFrame) (stat : string)
    (tbl : list (string * Q)) :
  (stat, tbl) ∈ kind_tables pbp_df def_stats_dict →
  ∃ flag pc, (stat, (flag, pc)) ∈ def_stats_dict ∧ pc ∈ columns pbp_df
             ∧ tbl = kind_table pbp_df stat flag pc.
Proof.
  unfold kind_tables, present_kinds.
  intros ([st [flag pc]] & [= -> ->] & [Hpc Hin]%list_elem_of_filter)%list_elem_of_fmap.
  by exists flag, pc.
Qed.

(** X2. The defensive table has one row for each player for whom some play
    counts under some kind, no other row, and no row without a name. *)
Theorem defensive_rows_are_the_players (pbp_df rosters_df final : DataFrame) :
  load_and_aggregate_pbp_data pbp_df rosters_df = Ok final →
  NoDup (keys_on pdn (rows final))
  ∧ ∀ k, k ∈ keys_on pdn (rows final) ↔
         ∃ name stat flag pc,
           k = Some name ∧ (stat, (flag, pc)) ∈ def_stats_dict
           ∧ pc ∈ columns pbp_df ∧ plays_of pbp_df stat flag pc name ≠ [].
Proof.
  intros Hload. rewrite (final_keys _ _ _ Hload).
  pose proof (joined_tables_inv pbp_df) as Hinv. simpl in Hinv.
  destruct (kind_tables pbp_df def_stats_dict) as [|t T] eqn:ET.
  - split; [constructor|]. intros k. split.
    + intros Hk. by apply elem_of_nil in Hk.
    + intros (name & stat & flag & pc & _ & Hkind & Hpc & _).
      pose proof (elem_of_kind_tables _ _ _ _ Hkind Hpc) as Hin.
      rewrite ET in Hin. by apply elem_of_nil in Hin.
  - specialize (Hinv ltac:(done)). rewrite <- ET in *.
    split; [apply (mi_NoDup _ _ Hinv)|]. intros k.
    rewrite (mi_keys _ _ Hinv). split.
    + intros (name & stat & tbl & -> & Hst & Hname).
      apply elem_of_kind_tables_inv in Hst as (flag & pc & Hkind & Hpc & ->).
      exists name, stat, flag, pc. split_and!; [done..|].
      by apply kind_table_players.
    + intros (name & stat & flag & pc & -> & Hkind & Hpc & Hplays).
      exists name, stat, (kind_table pbp_df stat flag pc).
      split_and!; [done|by apply elem_of_kind_tables|].
      by apply kind_table_players.
Qed.

Lemma defensive_rows_are_the_players_witness :
  load_and_aggregate_pbp_data pbp_example rosters_example = Ok defensive_example
  ∧ NoDup (keys_on pdn (rows defensive_example))
  ∧ Some "C" ∈ keys_on pdn (rows defensive_example).
Proof.
  assert (load_and_aggregate_pbp_data pbp_example rosters_example
          = Ok defensive_example) as Hload by (by vm_compute).
  destruct (defensive_rows_are_the_players _ _ _ Hload) as [Hnd Hkeys].
  split_and!; [done..|]. apply Hkeys.
  exists "C", "sacks", "sack", "sack_player_name".
  split_and!; [done|left| |by vm_compute].
  apply (bool_decide_unpack _). by vm_compute.
Defined.



(** ** When the aggregator returns *)

Lemma only_KeyError_Ok {A} (a : A) : only_KeyError (Ok a).
Proof. by intros e. Qed.

Lemma only_KeyError_bind {A B} (m : result A) (f : A → result B) :
  only_KeyError m → (∀ a, only_KeyError (f a)) → only_KeyError (m ≫= f).
Proof.
  intros Hm Hf e. destruct m as [a|e']; simpl.
  - apply Hf.
  - intros [= <-]. by apply Hm.
Qed.

Lemma only_KeyError_getcol (df : DataFrame) (c : string) :
  only_KeyError (getcol df c).
Proof. unfold getcol. intros e. destruct (has_col df c); [done|]. intros [= <-]. eauto. Qed.

Lemma only_KeyError_getcols (df : DataFrame) (cs : list string) :
  only_KeyError (getcols df cs).
Proof.
  induction cs as [|c cs IH]; simpl; [apply only_KeyError_Ok|].
  apply only_KeyError_bind; [apply only_KeyError_getcol|done].
Qed.

Lemma only_KeyError_stat_frame (pbp_df : DataFrame) (stat flag pc : string) :
  only_KeyError (stat_frame pbp_df stat flag pc).
Proof.
  unfold stat_frame. apply only_KeyError_bind; [|intros; apply only_KeyError_Ok].
  case_bool_decide.
  - apply only_KeyError_bind; [apply only_KeyError_getcols|].
    intros; apply only_KeyError_Ok.
  - apply only_KeyError_bind; [apply only_KeyError_getcol|]. intros _.
    apply only_KeyError_bind; [apply only_KeyError_getcols|]. intros _.
    apply only_KeyError_bind; [apply only_KeyError_getcol|].
    intros; apply only_KeyError_Ok.
Qed.

Lemma only_KeyError_aggregated_stats (pbp_df : DataFrame)
    (kinds : list (string * (string * string))) :
  only_KeyError (aggregated_stats pbp_df kinds).
Proof.
  induction kinds as [|[stat [flag pc]] kinds IH]; simpl;
    [apply only_KeyError_Ok|].
  destruct (has_col pbp_df pc); [|done].
  apply only_KeyError_bind; [apply only_KeyError_stat_frame|]. intros f.
  apply only_KeyError_bind; [done|]. intros; apply only_KeyError_Ok.
Qed.

Lemma stat_frame_Ok_inv (pbp_df : DataFrame) (stat flag pc : string)
    (f : DataFrame) :
  stat_frame pbp_df stat flag pc = Ok f →
  stat ∈ count_kinds ∨ flag ∈ columns pbp_df.
Proof.
  unfold stat_frame. intros H. inv_bind H. case_bool_decide; [by left|].
  inv_bind Ha. right. destruct a0. by apply getcol_Ok in Ha0.
Qed.

Lemma aggregated_stats_Ok_inv (pbp_df : DataFrame)
    (kinds : list (string * (string * string))) (frames : list DataFrame) :
  aggregated_stats pbp_df kinds = Ok frames →
  Forall (flag_in_place pbp_df) kinds.
Proof.
  revert frames. induction kinds as [|[stat [flag pc]] kinds IH];
    intros frames H; [constructor|].
  simpl in H. unfold has_col in H. case_bool_decide as Hpc.
  - inv_bind H. constructor; [|by eapply IH].
    intros _. by eapply stat_frame_Ok_inv.
  - constructor; [|by eapply IH]. by intros ?.
Qed.

(** X4. The aggregator returns a table exactly when every kind that sums a
    flag and has its player column also has its flag column, and the roster
    has the columns "player_name" and "position" unless the play table has
    none of the five player columns; otherwise it raises [KeyError] and
    nothing else. *)
Theorem aggregator_returns_iff (pbp_df rosters_df : DataFrame) :
  ((∃ final, load_and_aggregate_pbp_data pbp_df rosters_df = Ok final) ↔
   Forall (flag_in_place pbp_df) def_stats_dict
   ∧ (Forall (λ kind, kind.2.2 ∉ columns pbp_df) def_stats_dict
      ∨ Forall (λ c, c ∈ columns rosters_df) ["player_name"; "position"]))
  ∧ only_KeyError (load_and_aggregate_pbp_data pbp_df rosters_df).
Proof.
  split; [split|].
  - intros [final Hload]. pose proof Hload as H.
    unfold load_and_aggregate_pbp_data in H. inv_bind H.
    split; [by eapply aggregated_stats_Ok_inv|].
    destruct a as [|first others].
    + left. apply aggregated_stats_shape in Ha; [|apply def_stats_dict_ok].
      unfold frames_of, kind_tables, present_kinds in Ha.
      symmetry in Ha. apply fmap_nil_inv, fmap_nil_inv in Ha.
      apply Forall_forall. intros kind Hkind Hpc.
      assert (kind ∈ filter (λ kind, kind.2.2 ∈ columns pbp_df) def_stats_dict)
        as Hin by (by apply list_elem_of_filter).
      rewrite Ha in Hin. by apply elem_of_nil in Hin.
    + right. inv_bind H. unfold select in Ha0. inv_bind Ha0.
      destruct a0. by apply getcols_Ok in Ha1.
  - intros [Hflags [Hnone|Hros]].
    + exists empty_frame. by apply load_and_aggregate_no_kind.
    + by apply load_and_aggregate_Ok.
  - unfold load_and_aggregate_pbp_data.
    apply only_KeyError_bind; [apply only_KeyError_aggregated_stats|].
    intros [|first others]; [apply only_KeyError_Ok|].
    apply only_KeyError_bind; [|intros; apply only_KeyError_Ok].
    unfold select. apply only_KeyError_bind; [apply only_KeyError_getcols|].
    intros; apply only_KeyError_Ok.
Qed.

(** ** The position of a player *)

Lemma rename_keys_lookup {V} (m : gmap string string) (cells : gmap string V)
    (k : string) (v : V) :
  (∀ c1 c2, is_Some (cells !! c1) → is_Some (cells !! c2) →
            rename_col m c1 = rename_col m c2 → c1 = c2) →
  rename_keys m cells !! k = Some v ↔
  ∃ c, rename_col m c = k ∧ cells !! c = Some v.
Proof.
  intros Hinj. unfold rename_keys. rewrite <- elem_of_list_to_map.
  - rewrite list_elem_of_fmap. split.
    + intros ([c v'] & [= -> ->] & Hin). exists c. split; [done|].
      by apply elem_of_map_to_list.
    + intros (c & <- & Hc). exists (c, v). split; [done|].
      by apply elem_of_map_to_list.
  - rewrite <- list_fmap_compose.
    apply NoDup_fmap_2_strong; [|apply NoDup_map_to_list].
    intros [c1 v1] [c2 v2] H1%elem_of_map_to_list H2%elem_of_map_to_list E.
    simpl in E. assert (c1 = c2) as -> by (apply Hinj; eauto).
    f_equal. congruence.
Qed.

Lemma roster_row_txt (r : Row) :
  let cells := rename_keys ({[ "player_name" := pdn ]} : gmap string string)
                 (txt (select_row ["player_name"; "position"] r)) in
  cells !! pdn = txt r !! "player_name"
  ∧ cells !! "position" = txt r !! "position".
Proof.
  set (m := ({[ "player_name" := pdn ]} : gmap string string)).
  assert (rename_col m "player_name" = pdn) as Hn by done.
  assert (rename_col m "position" = "position") as Hp by done.
  assert (∀ c v, txt (select_row ["player_name"; "position"] r) !! c = Some v ↔
                 (c = "player_name" ∨ c = "position") ∧ txt r !! c = Some v)
    as Hsel.
  { intros c v. unfold select_row. simpl. rewrite map_lookup_filter_Some.
    simpl. rewrite !elem_of_cons, elem_of_nil. tauto. }
  assert (∀ c1 c2,
            is_Some (txt (select_row ["player_name"; "position"] r) !! c1) →
            is_Some (txt (select_row ["player_name"; "position"] r) !! c2) →
            rename_col m c1 = rename_col m c2 → c1 = c2) as Hinj.
  { intros c1 c2 [v1 [H1 _]%Hsel] [v2 [H2 _]%Hsel].
    destruct H1 as [-> | ->], H2 as [-> | ->]; rewrite ?Hn, ?Hp; done. }
  simpl. split; apply option_eq; intros v;
    rewrite (rename_keys_lookup m _ _ v Hinj); split.
  - intros (c & Hc & [[-> | ->] Hv]%Hsel); [done|].
    rewrite Hp in Hc. done.
  - intros Hv. exists "player_name". split; [done|]. apply Hsel. auto.
  - intros (c & Hc & [[-> | ->] Hv]%Hsel); [|done].
    rewrite Hn in Hc. done.
  - intros Hv. exists "position". split; [done|]. apply Hsel. auto.
Qed.

Lemma drop_duplicates_from_head (c : string) (k : option string)
    (seen : list (option string)) (rs : list Row) :
  k ∉ seen →
  head (filter (λ r, txt r !! c = k) (drop_duplicates_from c seen rs))
  = head (filter (λ r, txt r !! c = k) rs).
Proof.
  revert seen. induction rs as [|r rs IH]; intros seen Hk; [done|].
  simpl. case_bool_decide as Hseen.
  - rewrite filter_cons, decide_False by congruence. by apply IH.
  - rewrite !filter_cons. case_decide as Hr; [done|].
    apply IH. intros [?|?]%elem_of_cons; [congruence|done].
Qed.

Lemma head_filter_fmap {A B} (f : A → B) (P : B → Prop)
    `{∀ x, Decision (P x)} (l : list A) :
  head (filter P (f <$> l)) = f <$> head (filter (λ x, P (f x)) l).
Proof. rewrite filter_fmap_list. by destruct (filter _ l). Qed.

Lemma player_positions_match (rosters_df : DataFrame) (l : Row) (name : string) :
  txt l !! pdn = Some name →
  (right_match pdn (player_positions rosters_df) l ≫= λ m, txt m !! "position")
  = roster_position rosters_df name.
Proof.
  intros Hname. unfold right_match, player_positions, roster_position.
  rewrite (list_filter_iff _ (λ r, txt r !! pdn = Some name))
    by (intros r; unfold same_key; rewrite Hname; split; congruence).
  simpl. rewrite drop_duplicates_from_head by apply not_elem_of_nil.
  rewrite <- list_fmap_compose, head_filter_fmap. simpl.
  rewrite (list_filter_iff _ (λ r, txt r !! "player_name" = Some name)).
  - destruct (head _) as [r|]; [simpl|done]. apply roster_row_txt.
  - intros r. pose proof (roster_row_txt r) as [Hkey _]. simpl in Hkey.
    by rewrite Hkey.
Qed.

Lemma load_and_aggregate_shape_positions (pbp_df rosters_df final : DataFrame) :
  let T := kind_tables pbp_df def_stats_dict in
  load_and_aggregate_pbp_data pbp_df rosters_df = Ok final →
  T ≠ [] →
  rows final = finish (pdn :: T.*1) (converted T) (player_positions rosters_df)
                 <$> rows (joined_tables T).
Proof.
  intros T H HT. unfold load_and_aggregate_pbp_data in H. inv_bind H.
  apply aggregated_stats_shape in Ha; [|apply def_stats_dict_ok].
  fold T in Ha. subst a.
  pose proof (joined_tables_inv pbp_df) as Hinv. simpl in Hinv. fold T in Hinv.
  specialize (Hinv HT). unfold joined_tables in *.
  destruct (frames_of T) as [|first others] eqn:EF.
  { destruct T; [done|]. done. }
  set (M := foldl outer_on_player first others) in *.
  inv_bind H. injection H as <-.
  unfold select in Ha. inv_bind Ha. injection Ha as <-.
  rewrite merge_rows_unique by apply drop_duplicates_NoDup.
  rewrite app_nil_r. simpl.
  rewrite <- !list_fmap_compose. unfold finish, converted, has_col. simpl.
  rewrite (mi_columns _ _ Hinv). apply Forall_fmap_ext_1, Forall_forall.
  intros l _. simpl. unfold player_positions. simpl.
  rewrite <- list_fmap_compose. do 3 f_equal.
  apply list_filter_iff. intros stat. by rewrite bool_decide_spec.
Qed.

(** X5. The position of a row of the defensive table is the position of the
    first roster entry of the player, and NaN when the roster has no entry
    of that name (or the first one has no position). *)
Theorem defensive_position_from_roster (pbp_df rosters_df final : DataFrame)
    (r : Row) (name : string) :
  load_and_aggregate_pbp_data pbp_df rosters_df = Ok final →
  r ∈ rows final → txt r !! pdn = Some name →
  txt r !! "position" = roster_position rosters_df name.
Proof.
  intros Hload Hr Hname.
  set (T := kind_tables pbp_df def_stats_dict).
  assert (T ≠ []) as HT.
  { intros HT. pose proof (load_and_aggregate_shape _ _ _ Hload) as Hshape.
    simpl in Hshape. fold T in Hshape. rewrite HT in Hshape. subst final.
    by apply elem_of_nil in Hr. }
  pose proof (joined_tables_inv pbp_df HT) as Hinv. fold T in Hinv.
  rewrite (load_and_aggregate_shape_positions _ _ _ Hload HT) in Hr.
  fold T in Hr. apply list_elem_of_fmap in Hr as (l & -> & Hl).
  rewrite finish_key in Hname.
  rewrite <- (player_positions_match rosters_df
                (cast_row (converted T) (fill_row (pdn :: T.*1) l)) name)
    by done.
  unfold finish, joined.
  assert (txt l !! "position" = None) as Hnone.
  { destruct (txt l !! "position") as [s|] eqn:E; [|done].
    by apply (mi_txt _ _ Hinv) in E. }
  destruct (right_match _ _ _) as [m|]; simpl; [|done].
  rewrite lookup_union_r; done.
Qed.

Lemma defensive_position_from_roster_witness :
  load_and_aggregate_pbp_data pbp_example rosters_example = Ok defensive_example
  ∧ ∀ r, r ∈ rows defensive_example → txt r !! pdn = Some "B" →
         txt r !! "position" = Some "DE".
Proof.
  split; [by vm_compute|]. intros r Hr Hname.
  by rewrite (defensive_position_from_roster pbp_example rosters_example
                defensive_example r "B"); [|vm_compute|..].
Defined.

(** ** The leaderboard holds the largest values *)

Lemma num_gtb_select (cs : list string) (c : string) (v : Q) (r : Row) :
  c ∈ cs → num_gtb c v (select_row cs r) = num_gtb c v r.
Proof. intros Hc. unfold num_gtb. by rewrite select_row_num. Qed.

Lemma take_drop_sorted {A} (R : relation A) (n : nat) (l : list A) (a b : A) :
  StronglySorted R l → a ∈ take n l → b ∈ drop n l → R a b.
Proof.
  intros Hl Ha Hb. rewrite <- (take_drop n l) in Hl.
  apply StronglySorted_app in Hl as (Hab & _ & _). by apply Hab.
Qed.

Lemma drop_nonempty_take_length {A} (n : nat) (l : list A) :
  drop n l ≠ [] → length (take n l) = n.
Proof.
  intros Hne. apply length_take_le.
  destruct (decide (n ≤ length l)%nat) as [?|Hgt]; [done|].
  exfalso. apply Hne, drop_ge. lia.
Qed.

(** X6. The leaderboard holds the largest values: the candidates are the
    rows of the leaderboard together with the rows left out, every row left
    out has a value no larger than every row of the leaderboard, and rows
    are left out only when the leaderboard is full (20 rows).  On the
    defensive path the candidates are the rows with a positive value. *)
Theorem leaderboard_holds_the_largest `{SortValues} (input : LeaderboardInput)
    (stat_column : string) (lb : Leaderboard) :
  build_leaderboard input stat_column = Ok (Some lb) →
  ∃ rest,
    candidates input stat_column ≡ₚ (lb_rows lb).*2 ++ rest
    ∧ (∀ a b, a ∈ (lb_rows lb).*2 → b ∈ rest →
              ∃ x y, num a !! stat_column = Some x
                     ∧ num b !! stat_column = Some y ∧ (y <= x)%Q)
    ∧ (rest ≠ [] → length (lb_rows lb) = 20%nat).
Proof.
  destruct input as [df|df gcols dcols]; simpl; intros Hlb.
  - apply defense_leaderboard_Some in Hlb as [Hcol ->].
    assert (stat_column ∈ [pdn; "position"; stat_column]) as Hsel
      by (do 2 right; left).
    rewrite rank_from_one_rows, rank_from_one_length. simpl.
    set (Y := filter (λ r, num_gtb stat_column 0%Q r)
                (sort_rows stat_column (rows df))).
    exists (select_row [pdn; "position"; stat_column] <$> drop 20 Y).
    split_and!.
    + rewrite <- fmap_app, take_drop, filter_fmap_list.
      rewrite (list_filter_iff _ (λ r, num_gtb stat_column 0%Q r))
        by (intros r; by rewrite num_gtb_select).
      unfold Y. by rewrite sort_rows_perm.
    + intros a b (a' & -> & Ha)%list_elem_of_fmap (b' & -> & Hb)%list_elem_of_fmap.
      rewrite !select_row_num by done.
      assert (StronglySorted (desc_na_last stat_column) Y) as HY
        by apply StronglySorted_filter, sort_rows_StronglySorted.
      pose proof (take_drop_sorted _ _ _ _ _ HY Ha Hb) as Hab.
      apply subseteq_take, list_elem_of_filter in Ha as [Ha _].
      apply subseteq_drop, list_elem_of_filter in Hb as [Hb _].
      unfold desc_na_last in Hab. unfold num_gtb in Ha, Hb.
      destruct (num a' !! stat_column) as [x|]; [|done].
      destruct (num b' !! stat_column) as [y|]; [|done]. eauto.
    + intros Hrest. rewrite length_fmap. apply drop_nonempty_take_length.
      intros E. apply Hrest. by rewrite E.
  - apply stat_leaderboard_Some in Hlb as (Hcol & _ & ->).
    rewrite rank_from_one_rows, rank_from_one_length. simpl.
    set (G := rows (groupby_agg gcols stat_column (col_sum stat_column) df)).
    exists (drop 20 (sort_rows stat_column G)). split_and!.
    + by rewrite take_drop, sort_rows_perm.
    + intros a b Ha Hb.
      pose proof (take_drop_sorted _ _ _ _ _
                    (sort_rows_StronglySorted stat_column G) Ha Hb) as Hab.
      apply subseteq_take in Ha. apply subseteq_drop in Hb.
      rewrite sort_rows_perm in Ha, Hb.
      apply list_elem_of_fmap in Ha as (ka & -> & _).
      apply list_elem_of_fmap in Hb as (kb & -> & _).
      unfold desc_na_last in Hab. simpl in *.
      rewrite !lookup_singleton_eq in *. eauto.
    + apply drop_nonempty_take_length.
Qed.

Lemma leaderboard_holds_the_largest_witness :
  @build_leaderboard merge_sort_values (DefensiveTable defensive_example) "sacks"
    = Ok (Some sacks_leaders)
  ∧ ∃ rest,
      candidates (DefensiveTable defensive_example) "sacks"
        ≡ₚ (lb_rows sacks_leaders).*2 ++ rest
      ∧ (∀ a b, a ∈ (lb_rows sacks_leaders).*2 → b ∈ rest →
                ∃ x y, num a !! "sacks" = Some x
                       ∧ num b !! "sacks" = Some y ∧ (y <= x)%Q)
      ∧ (rest ≠ [] → length (lb_rows sacks_leaders) = 20%nat).
Proof.
  split; [by vm_compute|].
  apply (@leaderboard_holds_the_largest merge_sort_values
           (DefensiveTable defensive_example) "sacks" sacks_leaders).
  by vm_compute.
Defined.

(** ** The offensive leaderboard of the page *)

Lemma dict_get_Ok (d : list (string * string)) (k : option string) (v : string) :
  dict_get d k = Ok v → ∃ key, k = Some key ∧ (key, v) ∈ d.
Proof.
  destruct k as [key|]; [|done]. simpl.
  destruct (list_find _ d) as [[i [key' v']]|] eqn:Hfind; [|done].
  intros [= <-]. apply list_find_Some in Hfind as (Hi & Hkey & _).
  simpl in Hkey. subst key'. exists key. split; [done|].
  by eapply list_elem_of_lookup_2.
Qed.

Lemma row_key_pair (a b : string) (r : Row) (k : list string) :
  row_key [a; b] r = Some k
  ↔ ∃ s t, k = [s; t] ∧ txt r !! a = Some s ∧ txt r !! b = Some t.
Proof.
  unfold row_key. simpl.
  destruct (txt r !! a) as [s|], (txt r !! b) as [t|]; simpl; split;
    try done; try (by intros (? & ? & ? & ? & ?)).
  - intros [= <-]. by exists s, t.
  - by intros (s' & t' & -> & [= <-] & [= <-]).
Qed.

(** X7. On the Offense path a chart carries the week range of the slider
    in its title, its statistic is the column of the chosen entry of
    OFFENSE_STATS, and every row of its leaderboard names a player and a
    position and holds the sum of the statistic over the rows of the
    season-filtered weekly table of exactly that player and position whose
    week lies in the range of the title. *)
Theorem offense_page_sums_the_week_range `{SortValues}
    (weekly_df_raw : DataFrame) (ngs_data_raw : NgsType → DataFrame)
    (pbp_df rosters_df : DataFrame) (w : Widgets) (chart : Chart) :
  main_category w = Offense →
  top_performers weekly_df_raw ngs_data_raw pbp_df rosters_df w
    = Ok (TopPerformers (Some chart)) →
  ∃ weekly_df label lo hi,
    season_filter (season_type_toggle w) weekly_df_raw = Ok weekly_df
    ∧ chart_title chart = (Some label, Some (lo, hi))
    ∧ (label, chart_stat_col chart) ∈ OFFENSE_STATS
    ∧ ∀ x, x ∈ lb_rows (chart_df chart) →
        ∃ name pos,
          txt x.2 !! pdn = Some name ∧ txt x.2 !! "position" = Some pos
          ∧ num x.2 !! chart_stat_col chart
            = Some (col_sum (chart_stat_col chart)
                      (filter (λ r, txt r !! pdn = Some name
                                    ∧ txt r !! "position" = Some pos
                                    ∧ num_between "week" lo hi r)
                              (rows weekly_df))).
Proof.
  intros Hcat Hpage. unfold top_performers in Hpage. rewrite Hcat in Hpage.
  apply bind_Ok in Hpage as (defensive_df & Hdef & Hpage).
  apply bind_Ok in Hpage as (weekly_df & Hweekly & Hpage).
  destruct (df_empty weekly_df); [done|].
  apply bind_Ok in Hpage as (u & Hpdn & Hpage).
  apply bind_Ok in Hpage as ([min_week max_week] & Hbounds & Hpage).
  apply bind_Ok in Hpage as (stat_column & Hstat & Hpage).
  apply bind_Ok in Hpage as (leaderboard & Hlb & Hpage).
  destruct leaderboard as [lb|]; [|done].
  injection Hpage as <-. simpl.
  apply dict_get_Ok in Hstat as (label & Hkey & Hin).
  destruct (slider min_week max_week (week_choice w)) as [lo hi] eqn:Hslider.
  exists weekly_df, label, lo, hi.
  split_and!; [done|by rewrite <- Hkey|done|].
  intros x Hx. simpl in Hlb.
  destruct (stat_leaderboard_sums _ _ _ _ _ _ Hlb Hx) as (k & Hk & Htxt & Hnum).
  apply elem_of_group_keys in Hk as (r & _ & Hr).
  apply row_key_pair in Hr as (name & pos & -> & _).
  exists name, pos. rewrite Htxt, Hnum. split_and!; try done.
  do 2 f_equal. simpl. rewrite list_filter_filter.
  apply list_filter_iff. intros r'.
  pose proof (row_key_pair pdn "position" r' [name; pos]) as Hrk.
  unfold row_key in Hrk. simpl in Hrk. rewrite Hrk. split.
  - intros [(s & t & [= <- <-] & ? & ?) ?]. done.
  - intros (? & ? & ?). split; [|done]. by exists name, pos.
Qed.

Lemma offense_page_sums_the_week_range_witness :
  @top_performers merge_sort_values weekly_example ngs_example pbp_example
    rosters_example (offense_widgets (Some (1, 2)%Z))
    = Ok (TopPerformers (Some offense_chart_example))
  ∧ ∃ weekly_df label lo hi,
      season_filter All weekly_example = Ok weekly_df
      ∧ chart_title offense_chart_example = (Some label, Some (lo, hi))
      ∧ (label, chart_stat_col offense_chart_example) ∈ OFFENSE_STATS
      ∧ ∀ x, x ∈ lb_rows (chart_df offense_chart_example) →
          ∃ name pos,
            txt x.2 !! pdn = Some name ∧ txt x.2 !! "position" = Some pos
            ∧ num x.2 !! chart_stat_col offense_chart_example
              = Some (col_sum (chart_stat_col offense_chart_example)
                        (filter (λ r, txt r !! pdn = Some name
                                      ∧ txt r !! "position" = Some pos
                                      ∧ num_between "week" lo hi r)
                                (rows weekly_df))).
Proof.
  split; [by vm_compute|].
  apply (@offense_page_sums_the_week_range merge_sort_values weekly_example
           ngs_example pbp_example rosters_example
           (offense_widgets (Some (1, 2)%Z)) offense_chart_example);
    by vm_compute.
Defined.

(** ** Groups of the offense and Next Gen Stats leaderboards *)

Lemma filter_ext_in {A} (P Q : A → Prop) `{∀ x, Decision (P x)}
    `{∀ x, Decision (Q x)} (l : list A) :
  (∀ x, x ∈ l → P x ↔ Q x) → filter P l = filter Q l.
Proof.
  induction l as [|a l IH]; intros Hl; [done|].
  rewrite !filter_cons.
  assert (filter P l = filter Q l) as ->
    by (apply IH; intros x Hx; apply Hl; by right).
  pose proof (Hl a (list_elem_of_here _ _)) as Ha.
  destruct (decide (P a)), (decide (Q a)); tauto.
Qed.

Lemma key_cells_lookup (by_ k : list string) (i : nat) (c s : string) :
  NoDup by_ → length by_ = length k → by_ !! i = Some c → k !! i = Some s →
  key_cells by_ k !! c = Some s.
Proof.
  intros Hnd Hlen Hc Hs. unfold key_cells.
  apply elem_of_list_to_map_1.
  - rewrite fst_zip by lia. done.
  - apply (list_elem_of_lookup_2 _ i).
    apply lookup_zip_with_Some. eauto.
Qed.

Lemma row_key_key_cells (by_ k : list string) (m : gmap string Q) :
  NoDup by_ → length by_ = length k →
  row_key by_ (mkRow (key_cells by_ k) m) = Some k.
Proof.
  intros Hnd Hlen. unfold row_key. apply mapM_Some_2. simpl.
  apply Forall2_same_length_lookup. split; [done|].
  intros i c s Hc Hs. by eapply key_cells_lookup.
Qed.

(** X8. In the leaderboard of the offense and Next Gen Stats block no group
    appears twice: the rows have pairwise distinct values on the group
    columns, and each of them carries the group columns of a row of the
    input table that has no NaN in them. *)
Theorem leaderboard_groups_distinct `{SortValues} (df_for_leaders : DataFrame)
    (groupby_cols display_cols : list string) (stat_column : string)
    (lb : Leaderboard) :
  NoDup groupby_cols →
  stat_leaderboard df_for_leaders groupby_cols display_cols stat_column
    = Ok (Some lb) →
  NoDup ((λ x, row_key groupby_cols x.2) <$> lb_rows lb)
  ∧ ∀ x, x ∈ lb_rows lb →
      ∃ r k, r ∈ rows df_for_leaders
             ∧ row_key groupby_cols r = Some k
             ∧ row_key groupby_cols x.2 = Some k.
Proof.
  intros Hnd Hlb.
  assert (∀ k m, k ∈ group_keys groupby_cols (rows df_for_leaders) →
            row_key groupby_cols (mkRow (key_cells groupby_cols k) m) = Some k)
    as Hkey.
  { intros k m (r & _ & Hr)%elem_of_group_keys.
    apply row_key_key_cells; [done|]. by apply length_mapM in Hr. }
  split.
  - apply stat_leaderboard_Some in Hlb as (_ & _ & ->).
    match goal with
    | |- NoDup (_ <$> ?l) =>
        change (NoDup ((row_key groupby_cols ∘ snd) <$> l))
    end.
    rewrite list_fmap_compose.
    rewrite rank_from_one_rows. simpl.
    eapply sublist_NoDup; [|apply fmap_sublist, sublist_take].
    rewrite sort_rows_perm, <- list_fmap_compose.
    rewrite (Forall_fmap_ext_1 _ Some).
    + apply NoDup_fmap; [apply _|apply group_keys_NoDup].
    + apply Forall_forall. intros k Hk. by apply Hkey.
  - intros x Hx.
    destruct (stat_leaderboard_sums _ _ _ _ _ _ Hlb Hx) as (k & Hk & Htxt & _).
    pose proof Hk as (r & Hr & Hrk)%elem_of_group_keys.
    exists r, k. split_and!; [done..|].
    destruct x as [i [t m]]. simpl in *. subst t. by apply Hkey.
Qed.

Lemma leaderboard_groups_distinct_witness :
  NoDup [pdn; "position"]
  ∧ @stat_leaderboard merge_sort_values
      (where_ (num_between "week" 1 2) weekly_example) [pdn; "position"]
      [pdn; "position"; "passing_yards"] "passing_yards"
    = Ok (Some (chart_df offense_chart_example))
  ∧ NoDup ((λ x, row_key [pdn; "position"] x.2)
             <$> lb_rows (chart_df offense_chart_example))
  ∧ ∀ x, x ∈ lb_rows (chart_df offense_chart_example) →
      ∃ r k, r ∈ rows (where_ (num_between "week" 1 2) weekly_example)
             ∧ row_key [pdn; "position"] r = Some k
             ∧ row_key [pdn; "position"] x.2 = Some k.
Proof.
  assert (NoDup [pdn; "position"]) as Hnd
    by (apply (bool_decide_unpack _); by vm_compute).
  split; [done|].
  split; [by vm_compute|].
  apply (@leaderboard_groups_distinct merge_sort_values
           (where_ (num_between "week" 1 2) weekly_example)
           [pdn; "position"] [pdn; "position"; "passing_yards"]
           "passing_yards" (chart_df offense_chart_example) Hnd).
  by vm_compute.
Defined.

(** ** The groups share out the column total *)

Lemma Qsum_perm (l1 l2 : list Q) : l1 ≡ₚ l2 → (Qsum l1 == Qsum l2)%Q.
Proof.
  induction 1 as [|x l1 l2 _ IH|x y l|l1 l2 l3 _ IH1 _ IH2]; simpl.
  - reflexivity.
  - by rewrite IH.
  - ring.
  - by rewrite IH1.
Qed.

Lemma col_sum_cons (c : string) (r : Row) (rs : list Row) :
  (col_sum c (r :: rs) == default 0 (num r !! c) + col_sum c rs)%Q.
Proof.
  unfold col_sum. simpl. destruct (num r !! c); [reflexivity|].
  symmetry. apply Qplus_0_l.
Qed.

Lemma col_sum_split (c : string) (P Q : Row → Prop)
    `{∀ r, Decision (P r)} `{∀ r, Decision (Q r)} (rs : list Row) :
  (∀ r, P r → Q r → False) →
  (col_sum c (filter (λ r, P r ∨ Q r) rs)
   == col_sum c (filter P rs) + col_sum c (filter Q rs))%Q.
Proof.
  intros Hdisj. induction rs as [|r rs IH]; [done|].
  rewrite !filter_cons.
  destruct (decide (P r)) as [HP|HP], (decide (Q r)) as [HQ|HQ].
  - destruct (Hdisj r HP HQ).
  - rewrite decide_True by tauto. rewrite !col_sum_cons, IH. ring.
  - rewrite decide_True by tauto. rewrite !col_sum_cons, IH. ring.
  - rewrite decide_False by tauto. done.
Qed.

Lemma Qsum_groups (c : string) (by_ : list string) (rs : list Row)
    (ks : list (list string)) :
  NoDup ks →
  (Qsum ((λ k, col_sum c (filter (λ r, row_key by_ r = Some k) rs)) <$> ks)
   == col_sum c (filter (λ r, Exists (λ k, row_key by_ r = Some k) ks) rs))%Q.
Proof.
  induction 1 as [|k ks Hk _ IH]; simpl.
  - rewrite filter_none; [done|]. apply Forall_forall. intros r _.
    by intros ?%Exists_nil.
  - rewrite IH.
    rewrite <- (col_sum_split c (λ r, row_key by_ r = Some k)
                  (λ r, Exists (λ k, row_key by_ r = Some k) ks)).
    + erewrite list_filter_iff; [reflexivity|]. intros r. simpl.
      by rewrite Exists_cons.
    + intros r Hr (k' & Hk' & Hr')%Exists_exists. congruence.
Qed.

Lemma omap_snd {A B C} (f : B → option C) (l : list (A * B)) :
  omap (λ x, f x.2) l = omap f l.*2.
Proof.
  induction l as [|x l IH]; [done|].
  change (omap (λ x, f x.2) (x :: l))
    with (match f x.2 with
          | Some y => y :: omap (λ x, f x.2) l
          | None => omap (λ x, f x.2) l
          end).
  by rewrite IH.
Qed.

Lemma omap_fmap_Some {A B C} (f : B → option C) (g : A → B) (h : A → C)
    (l : list A) :
  (∀ x, f (g x) = Some (h x)) → omap f (g <$> l) = h <$> l.
Proof.
  intros Hf. induction l as [|x l IH]; [done|].
  simpl. rewrite Hf. f_equal. exact IH.
Qed.

(** X9. When the leaderboard of the offense and Next Gen Stats block has
    fewer than 20 rows, its values add up to the total of the statistic over
    the rows of the input table that have no NaN in the group columns: no
    such row is counted twice and none is lost. *)
Theorem leaderboard_conserves_the_total `{SortValues} (df_for_leaders : DataFrame)
    (groupby_cols display_cols : list string) (stat_column : string)
    (lb : Leaderboard) :
  stat_leaderboard df_for_leaders groupby_cols display_cols stat_column
    = Ok (Some lb) →
  (length (lb_rows lb) < 20)%nat →
  (Qsum (omap (λ x, num x.2 !! stat_column) (lb_rows lb))
   == col_sum stat_column
        (filter (λ r, is_Some (row_key groupby_cols r)) (rows df_for_leaders)))%Q.
Proof.
  intros Hlb Hlen. apply stat_leaderboard_Some in Hlb as (_ & _ & ->).
  rewrite rank_from_one_length in Hlen. simpl in Hlen.
  set (G := rows (groupby_agg groupby_cols stat_column (col_sum stat_column)
                    df_for_leaders)) in *.
  rewrite (omap_snd (λ r, num r !! stat_column)), rank_from_one_rows. simpl.
  fold G.
  rewrite take_ge by (rewrite length_take in Hlen; lia).
  rewrite (Qsum_perm _ (omap (λ r, num r !! stat_column) G))
    by (by rewrite sort_rows_perm).
  unfold G. simpl.
  rewrite (omap_fmap_Some _ _
             (λ k, col_sum stat_column
                     (filter (λ r, row_key groupby_cols r = Some k)
                        (rows df_for_leaders))))
    by (intros k; simpl; by rewrite lookup_singleton_eq).
  rewrite Qsum_groups by apply group_keys_NoDup.
  erewrite filter_ext_in; [reflexivity|].
  intros r Hr. rewrite Exists_exists. split.
  - intros (k & _ & ->). done.
  - intros [k Hk]. exists k. split; [|done].
    apply elem_of_group_keys. eauto.
Qed.

Lemma leaderboard_conserves_the_total_witness :
  @stat_leaderboard merge_sort_values
      (where_ (num_between "week" 1 2) weekly_example) [pdn; "position"]
      [pdn; "position"; "passing_yards"] "passing_yards"
    = Ok (Some (chart_df offense_chart_example))
  ∧ (length (lb_rows (chart_df offense_chart_example)) < 20)%nat
  ∧ (Qsum (omap (λ x, num x.2 !! "passing_yards")
             (lb_rows (chart_df offense_chart_example)))
     == col_sum "passing_yards"
          (filter (λ r, is_Some (row_key [pdn; "position"] r))
             (rows (where_ (num_between "week" 1 2) weekly_example))))%Q.
Proof.
  split; [by vm_compute|].
  split; [vm_compute; lia|].
  apply (@leaderboard_conserves_the_total merge_sort_values
           (where_ (num_between "week" 1 2) weekly_example)
           [pdn; "position"] [pdn; "position"; "passing_yards"]
           "passing_yards" (chart_df offense_chart_example));
    [by vm_compute|vm_compute; lia].
Defined.

(** ** The statistic of the Next Gen Stats path *)

Lemma elem_of_ngs_stat_cols (df : DataFrame) (label col : string) :
  (label, col) ∈ ngs_stat_cols df
  ↔ col ∈ columns df ∧ (col, label) ∈ NGS_TRANSLATIONS.
Proof.
  unfold ngs_stat_cols. rewrite list_elem_of_omap. split.
  - intros (c & Hc & Hlookup).
    destruct (_ !! c) as [l|] eqn:E; [|done].
    injection Hlookup as <- <-. split; [done|].
    by apply elem_of_list_to_map_2 in E.
  - intros [Hc Hin]. exists col. split; [done|].
    assert ((list_to_map NGS_TRANSLATIONS : gmap string string) !! col
            = Some label) as ->; [|done].
    apply elem_of_list_to_map_1; [|done].
    apply (bool_decide_unpack _). by vm_compute.
Qed.

Lemma stat_leaderboard_None `{SortValues} (df_for_leaders : DataFrame)
    (groupby_cols display_cols : list string) (stat_column : string) :
  stat_leaderboard df_for_leaders groupby_cols display_cols stat_column = Ok None →
  stat_column ∉ columns df_for_leaders ∨ df_empty df_for_leaders.
Proof.
  unfold stat_leaderboard, has_col. intros Hlb.
  destruct (decide (stat_column ∈ columns df_for_leaders)) as [Hcol|]; [|by left].
  right. rewrite bool_decide_true in Hlb by done.
  destruct (df_empty df_for_leaders); [done|]. simpl in Hlb.
  apply bind_Ok in Hlb as (? & _ & Hlb).
  by apply bind_Ok in Hlb as (? & _ & Hlb).
Qed.

(** X10. When the Next Gen Stats path shows its page, the statistic it has
    selected is a column of the Next Gen Stats table of the chosen kind that
    NGS_TRANSLATIONS translates, and a chart carries this column with its
    translation as title; the page is without a chart only when no row of
    that table is of the selected season.  In particular a table without a
    translated column never gives a page on this path. *)
Theorem ngs_page_statistic `{SortValues}
    (weekly_df_raw : DataFrame) (ngs_data_raw : NgsType → DataFrame)
    (pbp_df rosters_df : DataFrame) (w : Widgets) (chart : option Chart) :
  main_category w = NextGenStats →
  top_performers weekly_df_raw ngs_data_raw pbp_df rosters_df w
    = Ok (TopPerformers chart) →
  ∃ label stat_column,
    stat_column ∈ columns (ngs_data_raw (ngs_type w))
    ∧ (stat_column, label) ∈ NGS_TRANSLATIONS
    ∧ match chart with
      | Some c => chart_stat_col c = stat_column
                  ∧ (chart_title c).1 = Some label
      | None => ∀ r, r ∈ rows (ngs_data_raw (ngs_type w)) →
                     num_eqb "season" (inject_Z (selected_year w)) r = false
      end.
Proof.
  intros Hcat Hpage. unfold top_performers in Hpage. rewrite Hcat in Hpage.
  apply bind_Ok in Hpage as (defensive_df & Hdef & Hpage).
  apply bind_Ok in Hpage as (weekly_df & Hweekly & Hpage).
  destruct (df_empty weekly_df); [done|].
  apply bind_Ok in Hpage as (u & Hpdn & Hpage).
  apply bind_Ok in Hpage as ([min_week max_week] & Hbounds & Hpage).
  apply bind_Ok in Hpage as (u' & Hseason & Hpage).
  apply bind_Ok in Hpage as (stat_column & Hstat & Hpage).
  apply bind_Ok in Hpage as (leaderboard & Hlb & Hpage).
  injection Hpage as <-.
  apply dict_get_Ok in Hstat as (label & Hkey & Hin).
  apply elem_of_ngs_stat_cols in Hin as [Hcol Hin]. simpl in Hcol.
  exists label, stat_column. split_and!; [done..|].
  destruct leaderboard as [lb|]; simpl.
  - split; [done|]. by rewrite <- Hkey.
  - apply stat_leaderboard_None in Hlb as [Hno|Hempty]; [done|].
    unfold df_empty in Hempty. simpl in Hempty.
    destruct (columns (ngs_data_raw (ngs_type w))) as [|c cs] eqn:Hcs;
      [by apply elem_of_nil in Hcol|].
    intros r Hr.
    destruct (num_eqb "season" _ r) eqn:Hmask; [|done].
    assert (r ∈ filter (λ r, num_eqb "season" (inject_Z (selected_year w)) r)
                  (rows (ngs_data_raw (ngs_type w)))) as Hin'
      by (apply list_elem_of_filter; by rewrite Hmask).
    destruct (filter _ _); [by apply elem_of_nil in Hin'|done].
Qed.

Lemma ngs_page_statistic_witness :
  ngs_page None = Ok (TopPerformers (Some ngs_chart_example))
  ∧ ∃ label stat_column,
      stat_column ∈ columns (ngs_example Passing)
      ∧ (stat_column, label) ∈ NGS_TRANSLATIONS
      ∧ chart_stat_col ngs_chart_example = stat_column
      ∧ (chart_title ngs_chart_example).1 = Some label.
Proof.
  split; [by vm_compute|].
  apply (@ngs_page_statistic merge_sort_values weekly_example ngs_example
           pbp_example rosters_example
           (mkWidgets 2024 All NextGenStats 0 Passing None)
           (Some ngs_chart_example));
    by vm_compute.
Defined.

(** ** The page returns on tables of the expected shape *)

Lemma defensive_display_cols (pbp_df rosters_df final : DataFrame)
    (stat_column : string) :
  load_and_aggregate_pbp_data pbp_df rosters_df = Ok final →
  stat_column ∈ columns final →
  pdn ∈ columns final ∧ "position" ∈ columns final.
Proof.
  intros Hload Hcol. pose proof (load_and_aggregate_shape _ _ _ Hload) as Hshape.
  cbv zeta in Hshape.
  destruct (kind_tables pbp_df def_stats_dict) as [|T Ts].
  - subst final. by apply elem_of_nil in Hcol.
  - destruct Hshape as [positions ->]. cbn [columns]. split; [left|].
    right. apply elem_of_app. right. left.
Qed.

Lemma defense_leaderboard_returns `{SortValues} (pbp_df rosters_df final : DataFrame)
    (stat_column : string) :
  load_and_aggregate_pbp_data pbp_df rosters_df = Ok final →
  ∃ lb, defense_leaderboard final stat_column = Ok lb.
Proof.
  intros Hload. unfold defense_leaderboard, has_col.
  case_bool_decide as Hcol; [|by exists None].
  destruct (defensive_display_cols _ _ _ _ Hload Hcol) as [Hpdn Hpos].
  unfold select. rewrite (proj2 (getcols_Ok _ _)); [simpl; eauto|].
  simpl. by rewrite !Forall_cons.
Qed.

Lemma week_bounds_returns (df : DataFrame) :
  has_weeks df → ∃ bounds, week_bounds df = Ok bounds.
Proof.
  intros [Hcol (r & Hr & [q Hq])]. unfold week_bounds.
  rewrite (proj2 (getcol_Ok _ _)) by done. simpl.
  assert (q ∈ omap (λ r, num r !! "week") (rows df)) as Hin
    by (apply list_elem_of_omap; eauto).
  destruct (omap _ (rows df)) as [|q' l]; [by apply elem_of_nil in Hin|].
  simpl. eauto.
Qed.

Lemma selectbox_elem (options : list string) (choice : nat) :
  options ≠ [] → ∃ o, selectbox options choice = Some o ∧ o ∈ options.
Proof.
  intros Hne. unfold selectbox.
  destruct (options !! choice) as [o|] eqn:Ho.
  - exists o. split; [done|]. by eapply list_elem_of_lookup_2.
  - destruct options as [|o options]; [done|]. exists o. split; [done|left].
Qed.

Lemma dict_get_selectbox (d : list (string * string)) (options : list string)
    (choice : nat) :
  options ≠ [] → options ⊆ d.*1 →
  ∃ v, dict_get d (selectbox options choice) = Ok v.
Proof.
  intros Hne Hsub.
  destruct (selectbox_elem options choice Hne) as (o & -> & Ho).
  apply Hsub, list_elem_of_fmap in Ho as ([k v] & -> & Hkv). simpl.
  destruct (list_find_elem_of (λ kv : string * string, kv.1 = k) d (k, v))
    as [[i kv] ->]; [done..|]. eauto.
Qed.

Lemma stat_leaderboard_returns `{SortValues} (df_for_leaders : DataFrame)
    (groupby_cols display_cols : list string) (stat_column : string) :
  (stat_column ∈ columns df_for_leaders →
   Forall (λ c, c ∈ columns df_for_leaders) groupby_cols) →
  Forall (λ c, c ∈ groupby_cols ++ [stat_column]) display_cols →
  ∃ lb, stat_leaderboard df_for_leaders groupby_cols display_cols stat_column
        = Ok lb.
Proof.
  intros Hgroup Hdisplay. unfold stat_leaderboard, has_col.
  case_bool_decide as Hcol; [|by exists None].
  destruct (df_empty df_for_leaders); [by exists None|]. simpl.
  unfold groupby_sum.
  rewrite (proj2 (getcols_Ok _ _)) by auto. simpl.
  rewrite (proj2 (getcol_Ok _ _)) by done. simpl.
  unfold select. rewrite (proj2 (getcols_Ok _ _)) by done. simpl. eauto.
Qed.

Lemma bind_Ok_l {A B} (a : A) (f : A → result B) : Ok a ≫= f = f a.
Proof. done. Qed.

Ltac page_step := rewrite ?bind_Ok_l; cbv beta iota zeta.



(** ** The week range of the player summary *)

Lemma filter_all {A} (P : A → Prop) `{∀ x, Decision (P x)} (l : list A) :
  Forall P l → filter P l = l.
Proof.
  induction 1 as [|x l Hx _ IH]; [done|].
  by rewrite filter_cons, decide_True, IH.
Qed.

Lemma Qmin_list_spec (l : list Q) (m : Q) :
  Qmin_list l = Some m → m ∈ l ∧ ∀ q, q ∈ l → (m <= q)%Q.
Proof.
  revert m. induction l as [|x l IH]; intros m; [done|]. simpl.
  destruct (Qmin_list l) as [m'|] eqn:E.
  - destruct (IH m' eq_refl) as [Hin Hle].
    destruct (Qle_bool x m') eqn:Hx; intros [= <-].
    + apply Qle_bool_iff in Hx. split; [left|].
      intros q [->|Hq]%elem_of_cons; [apply Qle_refl|].
      eapply Qle_trans; [exact Hx|by apply Hle].
    + split; [by right|].
      intros q [->|Hq]%elem_of_cons; [|by apply Hle].
      apply Qlt_le_weak, Qnot_le_lt. intros Hle'.
      apply Qle_bool_iff in Hle'. congruence.
  - intros [= <-]. destruct l; [|done]. split; [left|].
    intros q [->|Hq]%elem_of_cons; [apply Qle_refl|by apply elem_of_nil in Hq].
Qed.

Lemma Qmax_list_spec (l : list Q) (m : Q) :
  Qmax_list l = Some m → m ∈ l ∧ ∀ q, q ∈ l → (q <= m)%Q.
Proof.
  revert m. induction l as [|x l IH]; intros m; [done|]. simpl.
  destruct (Qmax_list l) as [m'|] eqn:E.
  - destruct (IH m' eq_refl) as [Hin Hle].
    destruct (Qle_bool m' x) eqn:Hx; intros [= <-].
    + apply Qle_bool_iff in Hx. split; [left|].
      intros q [->|Hq]%elem_of_cons; [apply Qle_refl|].
      eapply Qle_trans; [by apply Hle|exact Hx].
    + split; [by right|].
      intros q [->|Hq]%elem_of_cons; [|by apply Hle].
      apply Qlt_le_weak, Qnot_le_lt. intros Hle'.
      apply Qle_bool_iff in Hle'. congruence.
  - intros [= <-]. destruct l; [|done]. split; [left|].
    intros q [->|Hq]%elem_of_cons; [apply Qle_refl|by apply elem_of_nil in Hq].
Qed.

Lemma week_bounds_cover (df : DataFrame) (lo hi : Z) :
  week_bounds df = Ok (lo, hi) →
  (∀ r, r ∈ rows df → ∃ q z, num r !! "week" = Some q ∧ (q == inject_Z z)%Q) →
  Forall (λ r, num_between "week" lo hi r) (rows df).
Proof.
  unfold week_bounds. intros Hb Hweeks. apply bind_Ok in Hb as (_ & _ & Hb).
  destruct (Qmin_list _) as [m|] eqn:Hmin; [|done].
  destruct (Qmax_list _) as [M|] eqn:Hmax; [|done].
  injection Hb as <- <-.
  apply Qmin_list_spec in Hmin as [Hm Hmin].
  apply Qmax_list_spec in Hmax as [HM Hmax].
  apply list_elem_of_omap in Hm as (rm & Hrm & Hm).
  apply list_elem_of_omap in HM as (rM & HrM & HM).
  destruct (Hweeks _ Hrm) as (qm & zm & Eqm & Hzm).
  destruct (Hweeks _ HrM) as (qM & zM & EqM & HzM).
  assert (qm = m) as -> by congruence. assert (qM = M) as -> by congruence.
  rewrite (Qtrunc_inject_Z _ _ Hzm), (Qtrunc_inject_Z _ _ HzM).
  apply Forall_forall. intros r Hr.
  destruct (Hweeks _ Hr) as (q & z & Eq & Hz).
  unfold num_between. rewrite Eq.
  assert (q ∈ omap (λ r, num r !! "week") (rows df)) as Hq
    by (apply list_elem_of_omap; eauto).
  apply Is_true_true, andb_true_iff. split; apply Qle_bool_iff.
  - rewrite <- Hzm. by apply Hmin.
  - rewrite <- HzM. by apply Hmax.
Qed.



Lemma Qsum_nonneg (l : list Q) : Forall (λ q, (0 <= q)%Q) l → (0 <= Qsum l)%Q.
Proof.
  induction 1 as [|q l Hq _ IH]; simpl; [apply Qle_refl|].
  replace 0%Q with (0 + 0)%Q by done. by apply Qplus_le_compat.
Qed.

Lemma col_sum_filter_le (c : string) (P : Row → Prop) `{∀ r, Decision (P r)}
    (rs : list Row) :
  (∀ r q, r ∈ rs → num r !! c = Some q → (0 <= q)%Q) →
  (col_sum c (filter P rs) <= col_sum c rs)%Q.
Proof.
  induction rs as [|r rs IH]; intros Hpos; [apply Qle_refl|].
  assert (col_sum c (filter P rs) <= col_sum c rs)%Q as Hle
    by (apply IH; intros r' q Hr'; apply Hpos; by right).
  assert (0 <= default 0 (num r !! c))%Q as Hr.
  { destruct (num r !! c) as [q|] eqn:E; [|apply Qle_refl].
    apply (Hpos r q); [left|done]. }
  rewrite filter_cons. destruct (decide (P r)).
  - rewrite !col_sum_cons. by apply Qplus_le_compat; [apply Qle_refl|].
  - rewrite (col_sum_cons c r rs).
    rewrite <- (Qplus_0_l (col_sum c (filter P rs))).
    by apply Qplus_le_compat.
Qed.

Lemma Qtrunc_mono (x y : Q) :
  (0 <= x)%Q → (x <= y)%Q → (0 ≤ Qtrunc x ≤ Qtrunc y)%Z.
Proof.
  intros Hx Hxy.
  assert (∀ q, (0 <= q)%Q → Qtrunc q = Qfloor q) as Hfloor.
  { intros [a d] Hq. unfold Qtrunc, Qfloor. simpl.
    apply Z.quot_div_nonneg; [|done].
    unfold Qle in Hq. simpl in Hq. lia. }
  rewrite !Hfloor by (done || by eapply Qle_trans).
  split; [|by apply Qfloor_resp_le].
  change 0%Z with (Qfloor 0). by apply Qfloor_resp_le.
Qed.



(** ** The performance chart *)

Lemma fmap_filter_iff {A B} (f : A → B) (P : B → Prop) (Q : A → Prop)
    `{∀ x, Decision (P x)} `{∀ x, Decision (Q x)} (l : list A) :
  (∀ x, Q x ↔ P (f x)) → f <$> filter Q l = filter P (f <$> l).
Proof.
  intros HPQ. induction l as [|x l IH]; [done|].
  rewrite fmap_cons, !filter_cons.
  destruct (decide (Q x)) as [HQ|HQ], (decide (P (f x))) as [HP|HP];
    rewrite ?fmap_cons, IH; try done; apply HPQ in HQ || apply HPQ in HP; done.
Qed.



(** ** The defensive leaderboard of the page, play by play *)

Lemma select_row_txt (cs : list string) (r : Row) (c : string) :
  c ∈ cs → txt (select_row cs r) !! c = txt r !! c.
Proof.
  intros Hc. unfold select_row. simpl. rewrite map_lookup_filter.
  destruct (txt r !! c) as [q|]; [|done]. simpl.
  by rewrite option_guard_True.
Qed.

Lemma defensive_stat_kind (pbp_df rosters_df final : DataFrame)
    (label stat_column : string) :
  load_and_aggregate_pbp_data pbp_df rosters_df = Ok final →
  (label, stat_column) ∈ DEFENSE_STATS →
  stat_column ∈ columns final →
  ∃ flag pc, (stat_column, (flag, pc)) ∈ def_stats_dict ∧ pc ∈ columns pbp_df.
Proof.
  intros Hload Hlabel Hcol.
  pose proof (load_and_aggregate_shape _ _ _ Hload) as Hshape.
  pose proof (kind_tables_stats pbp_df def_stats_dict) as Hstats.
  cbv zeta in Hshape.
  destruct (kind_tables pbp_df def_stats_dict) as [|T Ts] eqn:ET.
  { subst final. by apply elem_of_nil in Hcol. }
  destruct Hshape as [positions ->]. cbn [columns] in Hcol.
  rewrite Hstats in Hcol.
  assert (stat_column ≠ pdn ∧ stat_column ≠ "position") as [Hpdn Hpos].
  { apply list_elem_of_lookup_1 in Hlabel as [i Hi].
    do 5 (destruct i as [|i]; [by injection Hi as <- <-|]). done. }
  apply elem_of_cons in Hcol as [?|Hcol]; [done|].
  apply elem_of_app in Hcol as [Hcol|Hcol].
  - apply list_elem_of_fmap in Hcol as ([stat [flag pc]] & -> & Hin).
    apply list_elem_of_filter in Hin as [Hpc Hin]. by exists flag, pc.
  - by apply list_elem_of_singleton in Hcol.
Qed.

(** X15. On the Defense path a chart has no week range in its title, its
    statistic is the column of the chosen entry of DEFENSE_STATS, and every
    row of its leaderboard names a player and holds the number of plays of
    the play-by-play table that count for this player under the kind of the
    statistic, which is at least one. *)
Theorem defense_page_counts_plays `{SortValues}
    (weekly_df_raw : DataFrame) (ngs_data_raw : NgsType → DataFrame)
    (pbp_df rosters_df : DataFrame) (w : Widgets) (chart : Chart) :
  main_category w = Defense →
  top_performers weekly_df_raw ngs_data_raw pbp_df rosters_df w
    = Ok (TopPerformers (Some chart)) →
  ∃ label flag pc,
    chart_title chart = (Some label, None)
    ∧ (label, chart_stat_col chart) ∈ DEFENSE_STATS
    ∧ (chart_stat_col chart, (flag, pc)) ∈ def_stats_dict
    ∧ pc ∈ columns pbp_df
    ∧ ∀ x, x ∈ lb_rows (chart_df chart) →
        ∃ name (n : nat),
          txt x.2 !! pdn = Some name
          ∧ n = length (plays_of pbp_df (chart_stat_col chart) flag pc name)
          ∧ num x.2 !! chart_stat_col chart = Some (inject_Z (Z.of_nat n))
          ∧ (0 < n)%nat.
Proof.
  intros Hcat Hpage. unfold top_performers in Hpage. rewrite Hcat in Hpage.
  apply bind_Ok in Hpage as (defensive_df & Hload & Hpage).
  apply bind_Ok in Hpage as (weekly_df & Hweekly & Hpage).
  destruct (df_empty weekly_df); [done|].
  apply bind_Ok in Hpage as (u & Hpdn & Hpage).
  apply bind_Ok in Hpage as (stat_column & Hstat & Hpage).
  apply bind_Ok in Hpage as (leaderboard & Hlb & Hpage).
  destruct leaderboard as [lb|]; [|done].
  injection Hpage as <-. cbn [chart_title chart_stat_col chart_df].
  apply dict_get_Ok in Hstat as (label & Hkey & Hlabel).
  apply defense_leaderboard_Some in Hlb as [Hcol ->].
  destruct (defensive_stat_kind _ _ _ _ _ Hload Hlabel Hcol)
    as (flag & pc & Hkind & Hpc).
  exists label, flag, pc. split_and!; [by rewrite <- Hkey|done..|].
  intros x Hx.
  assert (x.2 ∈ (lb_rows (rank_from_one
            (mkDF [pdn; "position"; stat_column]
               (select_row [pdn; "position"; stat_column]
                  <$> take 20 (filter (λ r, num_gtb stat_column 0%Q r)
                                 (sort_rows stat_column (rows defensive_df))))))).*2)
    as Hx2 by (apply list_elem_of_fmap; eauto).
  rewrite rank_from_one_rows in Hx2. cbn [rows] in Hx2.
  apply list_elem_of_fmap in Hx2 as (r & -> & Hr).
  apply subseteq_take, list_elem_of_filter in Hr as [Hpos Hr].
  rewrite sort_rows_perm in Hr.
  destruct (final_row_spec _ _ _ Hload r Hr) as (name & Hname & _ & Hcells).
  destruct (Hcells stat_column _ (elem_of_kind_tables _ _ _ _ Hkind Hpc))
    as [Hsome Hnone].
  destruct (kind_table_value pbp_df stat_column flag pc name) as [Hvalue Hzero].
  assert (num r !! stat_column
          = Some (inject_Z (Z.of_nat
                    (length (plays_of pbp_df stat_column flag pc name))))) as Hnum.
  { destruct (decide (name ∈ (kind_table pbp_df stat_column flag pc).*1))
      as [Hin|Hin].
    - apply list_elem_of_fmap in Hin as ([name' q] & -> & Hin). simpl in *.
      by rewrite (Hsome q Hin), (Hvalue q Hin).
    - by rewrite (Hnone Hin), (Hzero Hin). }
  exists name, (length (plays_of pbp_df stat_column flag pc name)).
  rewrite select_row_txt by left.
  rewrite select_row_num by (do 2 right; left).
  split_and!; [done..|].
  unfold num_gtb in Hpos. rewrite Hnum in Hpos.
  apply Qlt_bool_iff in Hpos. unfold Qlt, inject_Z in Hpos. simpl in Hpos. lia.
Qed.

Lemma defense_page_counts_plays_witness :
  @top_performers merge_sort_values weekly_example ngs_example pbp_example
    rosters_example (mkWidgets 2024 All Defense 0 Passing None)
    = Ok (TopPerformers (Some defense_chart_example))
  ∧ ∃ label flag pc,
      chart_title defense_chart_example = (Some label, None)
      ∧ (label, chart_stat_col defense_chart_example) ∈ DEFENSE_STATS
      ∧ (chart_stat_col defense_chart_example, (flag, pc)) ∈ def_stats_dict
      ∧ pc ∈ columns pbp_example
      ∧ ∀ x, x ∈ lb_rows (chart_df defense_chart_example) →
          ∃ name (n : nat),
            txt x.2 !! pdn = Some name
            ∧ n = length (plays_of pbp_example
                            (chart_stat_col defense_chart_example) flag pc name)
            ∧ num x.2 !! chart_stat_col defense_chart_example
              = Some (inject_Z (Z.of_nat n))
            ∧ (0 < n)%nat.
Proof.
  split; [by vm_compute|].
  apply (@defense_page_counts_plays merge_sort_values weekly_example ngs_example
           pbp_example rosters_example
           (mkWidgets 2024 All Defense 0 Passing None) defense_chart_example);
    by vm_compute.
Defined.

(** ** The headers of the tables shown *)

(** X16. The tables are shown with these headers: a defensive statistic
    under its name in DEFENSE_STATS; an offensive statistic under its name
    in OFFENSE_STATS exactly when its column is not also the column of a
    defensive statistic (interceptions thrown and sacks taken are shown
    under the defensive names); a translated Next Gen Stats column under
    its raw column name; and distinct columns of the map never under the
    same header. *)
Theorem shown_headers :
  (∀ label col, (label, col) ∈ DEFENSE_STATS → header col = label)
  ∧ (∀ label col, (label, col) ∈ OFFENSE_STATS →
       (header col = label ↔ col ∉ DEFENSE_STATS.*2))
  ∧ (∀ col, col ∈ NGS_TRANSLATIONS.*1 → header col = col)
  ∧ (∀ c1 c2, c1 ∈ dom COLUMN_RENAME_MAP → c2 ∈ dom COLUMN_RENAME_MAP →
       header c1 = header c2 → c1 = c2).
Proof.
  split_and!.
  - intros label col Hin. revert label col Hin.
    assert (Forall (λ kv, header kv.2 = kv.1) DEFENSE_STATS) as Hall
      by (apply (bool_decide_unpack _); by vm_compute).
    intros label col Hin. by apply (proj1 (Forall_forall _ _) Hall (label, col)).
  - intros label col [i Hi]%list_elem_of_lookup_1.
    do 9 (destruct i as [|i];
          [injection Hi as <- <-; split; intros HP;
           first [ by vm_compute
                 | apply (bool_decide_unpack _); by vm_compute
                 | vm_compute in HP; done
                 | exfalso; apply HP; apply (bool_decide_unpack _);
                   by vm_compute ]|]).
    done.
  - assert (Forall (λ col, header col = col) (NGS_TRANSLATIONS.*1)) as Hall
      by (apply (bool_decide_unpack _); by vm_compute).
    intros col Hin. by apply (proj1 (Forall_forall _ _) Hall col).
  - assert (∀ c1 c2, c1 ∈ elements (dom COLUMN_RENAME_MAP) →
              c2 ∈ elements (dom COLUMN_RENAME_MAP) →
              header c1 = header c2 → c1 = c2) as Hinj.
    { assert (Forall (λ c1, Forall (λ c2, header c1 = header c2 → c1 = c2)
                               (elements (dom COLUMN_RENAME_MAP)))
                (elements (dom COLUMN_RENAME_MAP))) as Hall
        by (apply (bool_decide_unpack _); by vm_compute).
      intros c1 c2 H1 H2.
      apply (proj1 (Forall_forall _ _)
               (proj1 (Forall_forall _ _) Hall c1 H1) c2 H2). }
    intros c1 c2 H1 H2. apply Hinj; by apply elem_of_elements.
Qed.
